(** * RunHistory.js: day grouping of run-history records and filter projection

    A shallow embedding of [www/scripts/codecheckerviewer/RunHistory.js]:
    the grouping loop and the rendering of [renderRunHistoryTable], the
    request of [initRunHistory] and its callback, the click handler
    [onRunHistoryClick] and the date serializer [_formatDate], together with
    the fragment of JavaScript they rely on (numbers with NaN, string
    conversion and concatenation, [Array.prototype.join], global [replace],
    [Date] getters, objects used as insertion-ordered maps, exceptions,
    calls on the page with new node handles). *)

From Stdlib Require Import ZArith List String Ascii Bool Lia Permutation.
From Stdlib Require Import DecimalString.
From Stdlib Require DecimalPos DecimalZ.
Import ListNotations.

Open Scope list_scope.
Open Scope string_scope.
Open Scope Z_scope.

(** ** The JavaScript fragment *)

Module JS.

(** Numbers as this file meets them: the integers the [Date] getters
    return, and NaN, which every getter of an invalid date returns. *)
Inductive number : Type :=
| Num (z : Z)
| NaN.

(** [a + b] on numbers. *)
Definition add (a b : number) : number :=
  match a, b with
  | Num x, Num y => Num (x + y)
  | _, _ => NaN
  end.

(** [a > b] on numbers: every comparison with NaN is false. *)
Definition gt (a b : number) : bool :=
  match a, b with
  | Num x, Num y => y <? x
  | _, _ => false
  end.

(** ToString on numbers, as string concatenation and [join] apply it. *)
Definition ToString (n : number) : string :=
  match n with
  | Num z => NilZero.string_of_int (Z.to_int z)
  | NaN => "NaN"
  end.

(** ToBoolean on a string-valued property that may be missing. *)
Definition truthy (v : option string) : bool :=
  match v with
  | Some s => negb (s =? "")%string
  | None => false
  end.

(** The text a possibly missing property contributes to [+]. *)
Definition text (v : option string) : string :=
  match v with
  | Some s => s
  | None => "undefined"
  end.

(** [s.replace(/ /g, 'T')]: every space becomes the letter T. *)
Fixpoint replace_spaces_T (s : string) : string :=
  match s with
  | EmptyString => EmptyString
  | String c rest =>
      String (if Ascii.eqb c " " then "T"%char else c) (replace_spaces_T rest)
  end.

(** [parts.join(sep)] on an array whose elements are already texts. *)
Fixpoint join (sep : string) (parts : list string) : string :=
  match parts with
  | [] => ""
  | [p] => p
  | p :: rest => p ++ sep ++ join sep rest
  end.

(** What a statement leaves behind: it completes, or it throws. *)
Inductive completion (A : Type) : Type :=
| Normal (a : A)
| Throw (msg : string).
Arguments Normal {A} a.
Arguments Throw {A} msg.

(** The TypeError of reading property [p] of [undefined]. *)
Definition TypeError {A : Type} (p : string) : completion A :=
  Throw ("TypeError: Cannot read property '" ++ p ++ "' of undefined").

End JS.

(** ** Date objects *)

(** The local-time fields a valid [Date] answers its getters with.
    [month] is zero-based, as [getMonth] returns it. *)
Record DateFields : Type := mkDateFields {
  year : Z;
  month : Z;
  day : Z;
  hours : Z;
  minutes : Z;
  seconds : Z;
  milliseconds : Z
}.

(** A [Date] object: a valid instant seen through its local-time fields, or
    the Invalid Date that [new Date(text)] returns (it never throws) when
    the text is not a date. *)
Inductive Date : Type :=
| ValidDate (f : DateFields)
| InvalidDate.

Definition getter (field : DateFields -> Z) (d : Date) : JS.number :=
  match d with
  | ValidDate f => JS.Num (field f)
  | InvalidDate => JS.NaN
  end.

Definition getFullYear := getter year.
Definition getMonth := getter month.
Definition getDate := getter day.
Definition getHours := getter hours.
Definition getMinutes := getter minutes.
Definition getSeconds := getter seconds.
Definition getMilliseconds := getter milliseconds.

(** ** [_formatDate] (RunHistory.js, lines 142-154) *)

Definition _formatDate (date : Date) : string :=
  let mm := JS.add (getMonth date) (JS.Num 1) in
  let dd := getDate date in
  JS.join "-" [ JS.ToString (getFullYear date);
                (if JS.gt mm (JS.Num 9) then "" else "0") ++ JS.ToString mm;
                (if JS.gt dd (JS.Num 9) then "" else "0") ++ JS.ToString dd ]
  ++ " " ++
  JS.join ":" [ JS.ToString (getHours date);
                JS.ToString (getMinutes date);
                JS.ToString
                  (JS.add (getSeconds date)
                     (if JS.gt (getMilliseconds date) (JS.Num 0)
                      then JS.Num 1 else JS.Num 0)) ].

(** ** A concrete [new Date(text)] for the date-time format

    The engine's parser is not part of the repository.  The general results
    below hold for every parser; the concrete inputs are run through
    [iso_newDate], which reads the form [YYYY-MM-DDTHH:mm:ss] with an
    optional fraction [.f...] and no zone offset as local time, truncating
    the fraction to milliseconds, and answers Invalid Date to any other
    text. *)

Module IsoDate.

Definition digit (c : ascii) : option Z :=
  let n := Z.of_nat (nat_of_ascii c) in
  if (48 <=? n) && (n <=? 57) then Some (n - 48) else None.

(** Decimal value of a text made of digits only. *)
Fixpoint number_from (acc : Z) (s : string) : option Z :=
  match s with
  | EmptyString => Some acc
  | String c rest =>
      match digit c with
      | Some d => number_from (10 * acc + d) rest
      | None => None
      end
  end.

Definition number (s : string) : option Z :=
  match s with
  | EmptyString => None
  | _ => number_from 0 s
  end.

(** The field of exactly [len] digits that starts at position [pos]. *)
Definition field (pos len : nat) (s : string) : option Z :=
  let t := substring pos len s in
  if Nat.eqb (String.length t) len then number t else None.

Definition leap (y : Z) : bool :=
  ((y mod 4 =? 0) && negb (y mod 100 =? 0)) || (y mod 400 =? 0).

(** Days of month [m] (one-based) in year [y]. *)
Definition days_in_month (y m : Z) : Z :=
  if m =? 2 then (if leap y then 29 else 28)
  else if (m =? 4) || (m =? 6) || (m =? 9) || (m =? 11) then 30
  else 31.

Definition is_char (c : ascii) (o : option ascii) : bool :=
  match o with
  | Some c' => Ascii.eqb c c'
  | None => false
  end.

(** Milliseconds of a fraction [.f...]: its first three digits. *)
Definition fraction (s : string) : option Z :=
  match s with
  | EmptyString => Some 0
  | String c digits =>
      if Ascii.eqb c "."
      then match number digits with
           | Some _ => number (substring 0 3 (digits ++ "00"))
           | None => None
           end
      else None
  end.

Definition iso_newDate (s : string) : Date :=
  match field 0 4 s, field 5 2 s, field 8 2 s,
        field 11 2 s, field 14 2 s, field 17 2 s,
        fraction (substring 19 (String.length s - 19) s) with
  | Some y, Some mo, Some d, Some h, Some mi, Some sec, Some ms =>
      if is_char "-" (get 4 s) && is_char "-" (get 7 s)
         && is_char "T" (get 10 s)
         && is_char ":" (get 13 s) && is_char ":" (get 16 s)
         && (1 <=? mo) && (mo <=? 12)
         && (1 <=? d) && (d <=? days_in_month y mo)
         && (h <=? 23) && (mi <=? 59) && (sec <=? 59)
      then ValidDate (mkDateFields y (mo - 1) d h mi sec ms)
      else InvalidDate
  | _, _, _, _, _, _, _ => InvalidDate
  end.

End IsoDate.

(** ** Run-history records *)

(** The record the history service hands over.  [versionTag] and
    [checkCommand] may be missing ([None]). *)
Record RunHistoryData : Type := mkRunHistoryData {
  runId : Z;
  runName : string;
  time : string;
  user : string;
  versionTag : option string;
  checkCommand : option string
}.

(** ** Objects used as maps

    [historyGroupByDate] is an object literal keyed by day labels.  A day
    label holds a space and a comma: it is never an array index, so
    [Object.keys] lists the labels in insertion order, and it never names a
    property inherited from [Object.prototype], so reading a label finds an
    own property or [undefined].  The object is the list of its own
    properties, oldest first. *)

Module Obj.
Section Properties.
Context {V : Type}.

Definition t : Type := list (string * V).

(** [o[k]], [None] standing for [undefined]. *)
Fixpoint get (o : t) (k : string) : option V :=
  match o with
  | [] => None
  | (k', v) :: rest => if (k' =? k)%string then Some v else get rest k
  end.

(** [o[k] = v]: an existing property keeps its place, a new one is
    added last. *)
Fixpoint set (o : t) (k : string) (v : V) : t :=
  match o with
  | [] => [(k, v)]
  | (k', v') :: rest =>
      if (k' =? k)%string then (k, v) :: rest else (k', v') :: set rest k v
  end.

(** [Object.keys(o)]. *)
Definition keys (o : t) : list string := map fst o.

Definition values (o : t) : list V := map snd o.
End Properties.
Arguments t V : clear implicits.
End Obj.

(** ** The filter view and its collaborators *)

(** The members of [CC_OBJECTS.DetectionStatus] the click handler names. *)
Inductive DetectionStatus : Type := NEW | UNRESOLVED | REOPENED.

(** A filter widget of the filter view; [stateConverter] turns an enum
    member into the value the widget selects. *)
Record FilterWidget : Type := mkFilterWidget {
  stateConverter : DetectionStatus -> string
}.

(** [this.bugFilterView]: each widget property may be missing. *)
Record BugFilterView : Type := mkBugFilterView {
  _runNameFilter : option FilterWidget;
  _detectionStatusFilter : option FilterWidget;
  _detectionDateFilter : option FilterWidget;
  _runHistoryTagFilter : option FilterWidget
}.

(** The calls the click handler makes on its collaborators. *)
Inductive Call : Type :=
| clearAll
| runNameFilter_select (value : string)
| detectionStatusFilter_select (value : string)
| detectionDateFilter_initFixedDateInterval (fixedDate : string)
| runHistoryTagFilter_select (value : string)
| notifyAll
| hashHelper_setStateValues_subtab_null.

(** Statements that call collaborators and may throw: the calls made so far
    are threaded through, and survive a throw. *)
Module Effect.

Definition M (A : Type) : Type := list Call -> list Call * JS.completion A.

Definition ret {A : Type} (a : A) : M A := fun calls => (calls, JS.Normal a).

Definition bind {A B : Type} (m : M A) (k : A -> M B) : M B :=
  fun calls =>
    match m calls with
    | (calls', JS.Normal a) => k a calls'
    | (calls', JS.Throw msg) => (calls', JS.Throw msg)
    end.

(** A collaborator call. *)
Definition call (c : Call) : M unit :=
  fun calls => ((calls ++ [c])%list, JS.Normal tt).

(** [w.member]: reading a member of a missing widget throws. *)
Definition member {A : Type} (w : option A) (name : string) : M A :=
  fun calls =>
    match w with
    | Some a => (calls, JS.Normal a)
    | None => (calls, JS.TypeError name)
    end.

(** [array.forEach(f)]. *)
Fixpoint forEach {A : Type} (array : list A) (f : A -> M unit) : M unit :=
  match array with
  | [] => ret tt
  | x :: rest => bind (f x) (fun _ => forEach rest f)
  end.

(** The calls and the completion of a handler started afresh. *)
Definition run {A : Type} (m : M A) : list Call * JS.completion A := m [].

End Effect.

Notation "x <- m ;; k" := (Effect.bind m (fun x => k))
  (at level 61, m at next level, right associativity).
Notation "m ;;; k" := (Effect.bind m (fun _ => k))
  (at level 61, right associativity).

Section RunHistory.

(** [new Date(text)], the engine's parser. *)
Variable newDate : string -> Date.

(** The text [util.getMonthName(m)] contributes to a concatenation
    ([codechecker/util] is not among the sources at hand). *)
Variable getMonthName : JS.number -> string.

(** *** The grouping loop of [renderRunHistoryTable] (lines 48-59) *)

(** The date a record is grouped and projected by: line 50 and line 130. *)
Definition date_of (data : RunHistoryData) : Date :=
  newDate (JS.replace_spaces_T (time data)).

(** The day label, lines 51-53. *)
Definition groupDate (data : RunHistoryData) : string :=
  let date := date_of data in
  JS.ToString (getDate date) ++ " "
    ++ getMonthName (getMonth date) ++ ", "
    ++ JS.ToString (getFullYear date).

(** The body of the [forEach] callback, lines 50-58.  A bucket is an
    array, hence truthy: [!o[k]] holds exactly when [o[k]] is undefined. *)
Definition group_record (historyGroupByDate : Obj.t (list RunHistoryData))
    (data : RunHistoryData) : JS.completion (Obj.t (list RunHistoryData)) :=
  let groupDate := groupDate data in
  let historyGroupByDate :=
    match Obj.get historyGroupByDate groupDate with
    | None => Obj.set historyGroupByDate groupDate []
    | Some _ => historyGroupByDate
    end in
  match Obj.get historyGroupByDate groupDate with
  | Some bucket =>
      JS.Normal (Obj.set historyGroupByDate groupDate (bucket ++ [data])%list)
  | None => JS.TypeError "push"
  end.

Fixpoint group_records (historyGroupByDate : Obj.t (list RunHistoryData))
    (historyData : list RunHistoryData)
    : JS.completion (Obj.t (list RunHistoryData)) :=
  match historyData with
  | [] => JS.Normal historyGroupByDate
  | data :: rest =>
      match group_record historyGroupByDate data with
      | JS.Normal o => group_records o rest
      | JS.Throw msg => JS.Throw msg
      end
  end.

(** The object [historyGroupByDate] once the loop of lines 48-59 is over. *)
Definition historyGroupByDate (historyData : list RunHistoryData)
    : JS.completion (Obj.t (list RunHistoryData)) :=
  group_records [] historyData.

(** *** [onRunHistoryClick] (lines 113-140) *)

Definition onRunHistoryClick (filter : BugFilterView) (item : RunHistoryData)
    : Effect.M unit :=
  Effect.call clearAll ;;;
  match _runNameFilter filter with
  | Some _ => Effect.call (runNameFilter_select (runName item))
  | None => Effect.ret tt
  end ;;;
  (if negb (JS.truthy (versionTag item)) then
     Effect.forEach [NEW; UNRESOLVED; REOPENED] (fun status =>
       w <- Effect.member (_detectionStatusFilter filter) "select" ;;
       Effect.call (detectionStatusFilter_select (stateConverter w status))) ;;;
     let date := date_of item in
     _ <- Effect.member (_detectionDateFilter filter) "initFixedDateInterval" ;;
     Effect.call (detectionDateFilter_initFixedDateInterval (_formatDate date))
   else
     _ <- Effect.member (_runHistoryTagFilter filter) "select" ;;
     Effect.call (runHistoryTagFilter_select
                    (runName item ++ ":" ++ JS.text (versionTag item)))) ;;;
  Effect.call notifyAll ;;;
  Effect.call hashHelper_setStateValues_subtab_null.

End RunHistory.

(** ** Concrete collaborators for the worked inputs *)

(** English month names, indexed from zero. *)
Definition monthNames : list string :=
  [ "January"; "February"; "March"; "April"; "May"; "June"; "July";
    "August"; "September"; "October"; "November"; "December" ].

(** Modelled from the spec: [util.getMonthName], which lives in
    [codechecker/util]; the day label reads "5 June, 2024", so the helper
    maps a zero-based month index to its English name.  Outside the table
    an array lookup gives [undefined]. *)
Definition util_getMonthName (m : JS.number) : string :=
  match m with
  | JS.Num z =>
      if z <? 0 then "undefined" else nth (Z.to_nat z) monthNames "undefined"
  | JS.NaN => "undefined"
  end.

(** A filter view with every widget; the status widget selects by name. *)
Definition statusName (s : DetectionStatus) : string :=
  match s with
  | NEW => "New"
  | UNRESOLVED => "Unresolved"
  | REOPENED => "Reopened"
  end.

Definition widget : FilterWidget := mkFilterWidget statusName.

Definition fullFilterView : BugFilterView :=
  mkBugFilterView (Some widget) (Some widget) (Some widget) (Some widget).

Definition record (name time_ : string) (tag : option string)
    : RunHistoryData :=
  mkRunHistoryData 1 name time_ "operator" tag None.

(** ** Worked inputs *)

Definition acme_incremental : RunHistoryData :=
  record "acme" "2024-06-05 10:15:30" None.

Definition acme_snapshot : RunHistoryData :=
  record "acme" "2024-06-05 10:15:30.500" (Some "v1.2").

Definition acme_unparseable : RunHistoryData :=
  record "acme" "not a date" None.

Definition three_runs : list RunHistoryData :=
  [ record "first" "2024-06-05 10:15:30" None;
    record "second" "2024-06-06 08:00:00" None;
    record "third" "2024-06-05 23:59:59.250000" (Some "v2") ].

(** A filter view without run-name widget, and one with that widget only. *)
Definition viewWithoutRunName : BugFilterView :=
  mkBugFilterView None (Some widget) (Some widget) (Some widget).

Definition viewWithRunNameOnly : BugFilterView :=
  mkBugFilterView (Some widget) None None None.

(** ** Vocabulary of the statements *)

(** Two dates on one calendar day: equal year, month and day of month. *)
Definition same_day (d1 d2 : Date) : Prop :=
  getFullYear d1 = getFullYear d2
  /\ getMonth d1 = getMonth d2
  /\ getDate d1 = getDate d2.

(** Number of records held by all the buckets of a grouping. *)
Definition total_count (o : Obj.t (list RunHistoryData)) : nat :=
  list_sum (map (@List.length RunHistoryData) (Obj.values o)).

(** The calls that set a filter predicate. *)
Definition is_predicate (c : Call) : bool :=
  match c with
  | runNameFilter_select _
  | detectionStatusFilter_select _
  | detectionDateFilter_initFixedDateInterval _
  | runHistoryTagFilter_select _ => true
  | clearAll | notifyAll | hashHelper_setStateValues_subtab_null => false
  end.

Definition predicates (calls : list Call) : list Call :=
  filter is_predicate calls.

(** A text without any space. *)
Fixpoint spaceless (s : string) : bool :=
  match s with
  | EmptyString => true
  | String c rest => negb (Ascii.eqb c " ") && spaceless rest
  end.

(** A record with another [time]. *)
Definition with_time (t : string) (item : RunHistoryData) : RunHistoryData :=
  mkRunHistoryData (runId item) (runName item) t (user item)
                   (versionTag item) (checkCommand item).

(** How many times a list of calls broadcasts the filter state. *)
Definition broadcasts (calls : list Call) : nat :=
  List.length
    (List.filter (fun c => match c with notifyAll => true | _ => false end)
       calls).

(** The widgets the variant of [item] reads without a guard. *)
Definition variant_widgets_present (filter : BugFilterView)
    (item : RunHistoryData) : bool :=
  if JS.truthy (versionTag item)
  then match _runHistoryTagFilter filter with Some _ => true | None => false end
  else match _detectionStatusFilter filter, _detectionDateFilter filter with
       | Some _, Some _ => true
       | _, _ => false
       end.

(** The records of [l] that [label] maps to [k], in the order of [l]. *)
Definition labelled (label : RunHistoryData -> string) (k : string)
    (l : list RunHistoryData) : list RunHistoryData :=
  List.filter (fun data => (label data =? k)%string) l.

(** The bucket of [k], empty when there is none. *)
Definition bucket (o : Obj.t (list RunHistoryData)) (k : string)
    : list RunHistoryData :=
  match Obj.get o k with
  | Some b => b
  | None => []
  end.

(** What the grouping loop maintains: distinct keys and no empty bucket. *)
Definition well_formed (o : Obj.t (list RunHistoryData)) : Prop :=
  NoDup (Obj.keys o) /\ forall k, Obj.get o k <> Some [].

(** Unfolds a handler run down to its list of calls. *)
Ltac run_handler :=
  cbv [Effect.run onRunHistoryClick Effect.bind Effect.call Effect.ret
       Effect.member Effect.forEach negb];
  simpl app.

(** ** Vocabulary of the further statements *)

(** Each text of [l] once, in the order of its first occurrence. *)
Fixpoint first_occurrences (l : list string) : list string :=
  match l with
  | [] => []
  | k :: rest =>
      k :: List.filter (fun k' => negb (k' =? k)%string)
             (first_occurrences rest)
  end.

(** Whether the text [k] is among [keys]. *)
Definition among (keys : list string) (k : string) : bool :=
  existsb (String.eqb k) keys.

(** A record with another [versionTag]. *)
Definition with_versionTag (tag : option string) (item : RunHistoryData)
    : RunHistoryData :=
  mkRunHistoryData (runId item) (runName item) (time item) (user item)
                   tag (checkCommand item).

(** The records used for the empty version tag. *)
Definition acme_empty_tag : RunHistoryData :=
  record "acme" "2024-06-05 10:15:30" (Some "").

(** A filter view whose date widget is missing. *)
Definition viewWithoutDate : BugFilterView :=
  mkBugFilterView (Some widget) (Some widget) None (Some widget).

(** A text made of decimal digits only. *)
Fixpoint digits_only (s : string) : bool :=
  match s with
  | EmptyString => true
  | String c rest =>
      match IsoDate.digit c with
      | Some _ => digits_only rest
      | None => false
      end
  end.

(** The fields of a date are natural numbers. *)
Definition natural_fields (f : DateFields) : Prop :=
  0 <= year f /\ 0 <= month f /\ 0 <= day f
  /\ 0 <= hours f /\ 0 <= minutes f /\ 0 <= seconds f.

(** The seconds [_formatDate] writes: one more when milliseconds are left. *)
Definition written_seconds (f : DateFields) : Z :=
  seconds f + (if 0 <? milliseconds f then 1 else 0).

(** The text [t] has [len] characters, all digits, and is worth [n]. *)
Definition writes (len : nat) (n : Z) (t : string) : bool :=
  Nat.eqb (String.length t) len
  && match IsoDate.number t with
     | Some m => m =? n
     | None => false
     end.

(** ** Rendering the history table (RunHistory.js, lines 32-111) *)

(** The two click closures of the table, each with the record it captures:
    [function () { that.onRunHistoryClick(data); }] on an entry, and
    [function () { that._dialog.set('content', data.checkCommand);
    that._dialog.show(); }] on a check-command link. *)
Inductive Handler : Type :=
| click_onRunHistoryClick (data : RunHistoryData)
| click_showCheckCommand (data : RunHistoryData).

(** The attribute object handed to [dom.create]. *)
Record Attrs : Type := mkAttrs {
  class : option string;
  title : option string;
  innerHTML : option string;
  onclick : option Handler
}.

(** The calls the widget makes on the page: [dom.create] and [dom.place]
    with the node handles they return or take, [util.createRunTag], the
    standby indicator and the history service. *)
Inductive UiCall : Type :=
| dom_create (node : nat) (tag : string) (attrs : Attrs) (refNode : nat)
| util_createRunTag (node : nat) (runName versionTag : string)
| dom_place (node refNode : nat)
| standBy_show
| standBy_hide
| CC_SERVICE_getRunHistory (runIds : option (list Z)) (limit offset : Z).
(* [getRunHistory] is always called with [null] as its fourth argument. *)

(** The calls of the check-command closure on the dialog. *)
Inductive DialogCall : Type :=
| dialog_set_content (content : string)
| dialog_show.

(** Statements that call the page: the calls made so far and the next
    unused node handle are threaded through. *)
Module Render.

Record state : Type := mkState {
  next_node : nat;
  calls : list UiCall
}.

Definition M (A : Type) : Type := state -> state * JS.completion A.

Definition ret {A : Type} (a : A) : M A := fun s => (s, JS.Normal a).

Definition bind {A B : Type} (m : M A) (k : A -> M B) : M B :=
  fun s =>
    match m s with
    | (s', JS.Normal a) => k a s'
    | (s', JS.Throw msg) => (s', JS.Throw msg)
    end.

Definition throw {A : Type} (msg : string) : M A :=
  fun s => (s, JS.Throw msg).

(** A call that returns nothing. *)
Definition call (c : UiCall) : M unit :=
  fun s => (mkState (next_node s) (calls s ++ [c])%list, JS.Normal tt).

(** A call that returns a new node. *)
Definition call_new (c : nat -> UiCall) : M nat :=
  fun s =>
    (mkState (S (next_node s)) (calls s ++ [c (next_node s)])%list,
     JS.Normal (next_node s)).

(** [o.member] on a value that may be [undefined]. *)
Definition member {A : Type} (o : option A) (name : string) : M A :=
  fun s =>
    match o with
    | Some a => (s, JS.Normal a)
    | None => (s, JS.TypeError name)
    end.

(** [array.forEach(f)]. *)
Fixpoint forEach {A : Type} (array : list A) (f : A -> M unit) : M unit :=
  match array with
  | [] => ret tt
  | x :: rest => bind (f x) (fun _ => forEach rest f)
  end.

End Render.

Notation "x <-- m ;; k" := (Render.bind m (fun x => k))
  (at level 61, m at next level, right associativity).
Notation "m >> k" := (Render.bind m (fun _ => k))
  (at level 61, right associativity).

(** The functions of [dojo/dom-construct] and [codechecker/util] that make
    or move nodes, as calls. *)
Module dom.

(** [dom.create(tag, attrs, refNode)]: the new node, placed last in
    [refNode]. *)
Definition create (tag : string) (attrs : Attrs) (refNode : nat)
    : Render.M nat :=
  Render.call_new (fun node => dom_create node tag attrs refNode).

(** [dom.place(node, refNode)]. *)
Definition place (node refNode : nat) : Render.M unit :=
  Render.call (dom_place node refNode).

End dom.

Module util.

(** [util.createRunTag(runName, versionTag)]: a new node, not yet placed. *)
Definition createRunTag (runName versionTag : string) : Render.M nat :=
  Render.call_new (fun node => util_createRunTag node runName versionTag).

End util.

Section Rendering.

Variable newDate : string -> Date.
Variable getMonthName : JS.number -> string.

(** The text of [util.formatDateAMPM(date)] ([codechecker/util] is not
    among the sources at hand). *)
Variable formatDateAMPM : Date -> string.

(** [CC_OBJECTS.MAX_QUERY_SIZE]. *)
Variable MAX_QUERY_SIZE : Z.

(** [that.domNode], the node of the widget. *)
Variable domNode : nat.

(** The body of the inner [forEach] callback, lines 72-108: one entry. *)
Definition render_history (content : nat) (data : RunHistoryData)
    : Render.M unit :=
  let date := date_of newDate data in
  let time := formatDateAMPM date in
  history <-- dom.create "div"
                (mkAttrs (Some "history") None None None) content ;;
  wrapper <-- dom.create "span"
                (mkAttrs None None None
                   (Some (click_onRunHistoryClick data))) history ;;
  _ <-- dom.create "span"
          (mkAttrs (Some "time") None (Some time) None) wrapper ;;
  runNameWrapper <-- dom.create "span"
                       (mkAttrs (Some "run-name-wrapper") (Some "Run name")
                          None None) wrapper ;;
  _ <-- dom.create "span"
          (mkAttrs (Some "customIcon run-name") None None None)
          runNameWrapper ;;
  _ <-- dom.create "span"
          (mkAttrs (Some "run-name") None (Some (runName data)) None)
          runNameWrapper ;;
  (if JS.truthy (versionTag data) then
     runTag <-- util.createRunTag (runName data)
                  (JS.text (versionTag data)) ;;
     dom.place runTag wrapper
   else Render.ret tt) >>
  userWrapper <-- dom.create "span"
                    (mkAttrs (Some "user-wrapper") (Some "User name")
                       None None) wrapper ;;
  _ <-- dom.create "span"
          (mkAttrs (Some "customIcon user") None None None) userWrapper ;;
  _ <-- dom.create "span"
          (mkAttrs (Some "user") None (Some (user data)) None) userWrapper ;;
  if JS.truthy (checkCommand data) then
    _ <-- dom.create "span"
            (mkAttrs (Some "check-command link") None (Some "Check command")
               (Some (click_showCheckCommand data))) history ;;
    Render.ret tt
  else Render.ret tt.

(** The body of the outer [forEach] callback, lines 67-109: one day. *)
Definition render_group (historyGroupByDate : Obj.t (list RunHistoryData))
    (key : string) : Render.M unit :=
  group <-- dom.create "div"
              (mkAttrs (Some "history-group") None None None) domNode ;;
  _ <-- dom.create "div"
          (mkAttrs (Some "header") None (Some key) None) group ;;
  content <-- dom.create "div"
                (mkAttrs (Some "content") None None None) group ;;
  bucket <-- Render.member (Obj.get historyGroupByDate key) "forEach" ;;
  Render.forEach bucket (render_history content).

(** [renderRunHistoryTable], lines 45-111: the grouping loop, then one
    group per key of the grouping.  The filter widgets read on lines 61-64
    are not used. *)
Definition renderRunHistoryTable (historyData : list RunHistoryData)
    : Render.M unit :=
  match historyGroupByDate newDate getMonthName historyData with
  | JS.Throw msg => Render.throw msg
  | JS.Normal o => Render.forEach (Obj.keys o) (render_group o)
  end.



End Rendering.

(** The check-command closure, lines 104-107, on the record it captured. *)
Definition showCheckCommand (data : RunHistoryData) : list DialogCall :=
  [ dialog_set_content (JS.text (checkCommand data)); dialog_show ].

(** ** Vocabulary of the statements on rendering *)

Section RenderingVocabulary.

Variable newDate : string -> Date.
Variable formatDateAMPM : Date -> string.

(** Nodes made for one entry: nine, one more with a run tag, one more with
    a check-command link. *)
Definition history_size (data : RunHistoryData) : nat :=
  (if JS.truthy (checkCommand data) then 1 else 0)
  + ((if JS.truthy (versionTag data) then 1 else 0) + 9).

(** The calls of one entry when [n] is the next unused node. *)
Definition history_calls (n content : nat) (data : RunHistoryData)
    : list UiCall :=
  Render.calls
    (fst (render_history newDate formatDateAMPM content data
            (Render.mkState n []))).

(** The calls of the entries of one bucket. *)
Fixpoint bucket_calls (n content : nat) (bucket : list RunHistoryData)
    : list UiCall :=
  match bucket with
  | [] => []
  | data :: rest =>
      (history_calls n content data
       ++ bucket_calls (history_size data + n) content rest)%list
  end.

Definition bucket_size (bucket : list RunHistoryData) : nat :=
  list_sum (map history_size bucket).

(** The calls of one day group: its three frame nodes, then its entries. *)
Definition group_calls (domNode n : nat) (key : string)
    (bucket : list RunHistoryData) : list UiCall :=
  ([ dom_create n "div"
       (mkAttrs (Some "history-group") None None None) domNode;
     dom_create (1 + n) "div"
       (mkAttrs (Some "header") None (Some key) None) n;
     dom_create (2 + n) "div"
       (mkAttrs (Some "content") None None None) n ]
   ++ bucket_calls (3 + n) (2 + n) bucket)%list.

(** The calls of a whole table, group after group. *)
Fixpoint table_calls (domNode n : nat)
    (groups : list (string * list RunHistoryData)) : list UiCall :=
  match groups with
  | [] => []
  | (key, bucket) :: rest =>
      (group_calls domNode n key bucket
       ++ table_calls domNode (bucket_size bucket + (3 + n)) rest)%list
  end.

Definition table_size (groups : list (string * list RunHistoryData)) : nat :=
  list_sum (map (fun g => (bucket_size (snd g) + 3)%nat) groups).

End RenderingVocabulary.



(** The records behind the clickable entries created, top to bottom. *)
Definition entry_records (calls : list UiCall) : list RunHistoryData :=
  flat_map (fun c =>
    match c with
    | dom_create _ _ (mkAttrs _ _ _ (Some (click_onRunHistoryClick data))) _ =>
        [data]
    | _ => []
    end) calls.

(** The records behind the check-command links created, top to bottom. *)
Definition checkCommand_links (calls : list UiCall) : list RunHistoryData :=
  flat_map (fun c =>
    match c with
    | dom_create _ _ (mkAttrs _ _ _ (Some (click_showCheckCommand data))) _ =>
        [data]
    | _ => []
    end) calls.

(** The run tags created: run name and version tag. *)
Definition run_tags (calls : list UiCall) : list (string * string) :=
  flat_map (fun c =>
    match c with
    | util_createRunTag _ name tag => [(name, tag)]
    | _ => []
    end) calls.

(** The nodes made, in the order they were made. *)
Definition new_nodes (calls : list UiCall) : list nat :=
  flat_map (fun c =>
    match c with
    | dom_create node _ _ _ => [node]
    | util_createRunTag node _ _ => [node]
    | _ => []
    end) calls.

(** The placements made, in order: a node and the node it went into. *)
Definition placements (calls : list UiCall) : list (nat * nat) :=
  flat_map (fun c =>
    match c with
    | dom_create node _ _ refNode => [(node, refNode)]
    | dom_place node refNode => [(node, refNode)]
    | _ => []
    end) calls.

(** The entry of [data] in the node [content]: a history node holding the
    clickable wrapper of [data] with its time, run name and user. *)
Definition entry_in (newDate : string -> Date)
    (formatDateAMPM : Date -> string) (calls : list UiCall)
    (content : nat) (data : RunHistoryData) : Prop :=
  exists history wrapper time_ names name_ users user_,
    In (dom_create history "div"
          (mkAttrs (Some "history") None None None) content) calls
    /\ In (dom_create wrapper "span"
             (mkAttrs None None None (Some (click_onRunHistoryClick data)))
             history) calls
    /\ In (dom_create time_ "span"
             (mkAttrs (Some "time") None
                (Some (formatDateAMPM (date_of newDate data))) None)
             wrapper) calls
    /\ In (dom_create names "span"
             (mkAttrs (Some "run-name-wrapper") (Some "Run name") None None)
             wrapper) calls
    /\ In (dom_create name_ "span"
             (mkAttrs (Some "run-name") None (Some (runName data)) None)
             names) calls
    /\ In (dom_create users "span"
             (mkAttrs (Some "user-wrapper") (Some "User name") None None)
             wrapper) calls
    /\ In (dom_create user_ "span"
             (mkAttrs (Some "user") None (Some (user data)) None)
             users) calls.

(** The entry of [data] under the day header [key]: a group made in
    [domNode] with that header and a content node that holds the entry. *)
Definition entry_under (newDate : string -> Date)
    (formatDateAMPM : Date -> string) (calls : list UiCall)
    (domNode : nat) (key : string) (data : RunHistoryData) : Prop :=
  exists group header content,
    In (dom_create group "div"
          (mkAttrs (Some "history-group") None None None) domNode) calls
    /\ In (dom_create header "div"
             (mkAttrs (Some "header") None (Some key) None) group) calls
    /\ In (dom_create content "div"
             (mkAttrs (Some "content") None None None) group) calls
    /\ entry_in newDate formatDateAMPM calls content data.

(** Every placement puts a node into [root] or into a node made earlier,
    from [lo] on. *)
Definition placed_in_earlier (lo root : nat) (calls : list UiCall) : Prop :=
  Forall (fun p => snd p = root \/ (lo <= snd p < fst p)%nat)
    (placements calls).

(** A record with a check command and a tag, and one with neither. *)
Definition tagged_with_command : RunHistoryData :=
  mkRunHistoryData 7 "acme" "2024-06-05 10:15:30" "operator"
    (Some "v1.2") (Some "CodeChecker check -b make").

(** A stand-in for [util.formatDateAMPM] on the worked inputs: hours and
    minutes. *)
Definition hours_minutes (d : Date) : string :=
  JS.ToString (getHours d) ++ ":" ++ JS.ToString (getMinutes d).

(** The calls of a rendering started with [n] as next unused node and no
    call made yet, and how it completes. *)
Definition rendering (newDate : string -> Date)
    (getMonthName : JS.number -> string) (formatDateAMPM : Date -> string)
    (domNode n : nat) (historyData : list RunHistoryData)
    : list UiCall * JS.completion unit :=
  let result :=
    renderRunHistoryTable newDate getMonthName formatDateAMPM domNode
      historyData (Render.mkState n []) in
  (Render.calls (fst result), snd result).

(** ** Facts about objects used as maps *)

Module ObjFacts.
Section Properties.
Context {V : Type}.
Implicit Types (o : Obj.t V) (k : string) (v : V).

Lemma get_set_same o k v : Obj.get (Obj.set o k v) k = Some v.
Proof.
  induction o as [|[k' v'] o IH]; simpl.
  - now rewrite String.eqb_refl.
  - destruct (String.eqb_spec k' k) as [->|Hne]; simpl.
    + now rewrite String.eqb_refl.
    + destruct (String.eqb_spec k' k); [contradiction | exact IH].
Qed.

Lemma get_set_other o k k' v :
  k <> k' -> Obj.get (Obj.set o k v) k' = Obj.get o k'.
Proof.
  intros Hne. induction o as [|[k0 v0] o IH]; simpl.
  - destruct (String.eqb_spec k k'); [contradiction | reflexivity].
  - destruct (String.eqb_spec k0 k) as [->|Hk]; simpl.
    + destruct (String.eqb_spec k k'); [contradiction | reflexivity].
    + now rewrite IH.
Qed.

Lemma get_None_keys o k : Obj.get o k = None <-> ~ In k (Obj.keys o).
Proof.
  induction o as [|[k' v'] o IH]; simpl.
  - tauto.
  - destruct (String.eqb_spec k' k) as [->|Hne].
    + split; [discriminate | tauto].
    + rewrite IH. tauto.
Qed.

Lemma keys_set_new o k v :
  Obj.get o k = None -> Obj.keys (Obj.set o k v) = (Obj.keys o ++ [k])%list.
Proof.
  induction o as [|[k' v'] o IH]; simpl; [reflexivity|].
  destruct (String.eqb_spec k' k); [discriminate|].
  intros H. simpl. now rewrite (IH H).
Qed.

Lemma keys_set_old o k v v' :
  Obj.get o k = Some v' -> Obj.keys (Obj.set o k v) = Obj.keys o.
Proof.
  induction o as [|[k0 v0] o IH]; simpl; [discriminate|].
  destruct (String.eqb_spec k0 k) as [->|Hne]; [reflexivity|].
  intros H. simpl. now rewrite (IH H).
Qed.

Lemma values_set_new o k v :
  Obj.get o k = None ->
  Obj.values (Obj.set o k v) = (Obj.values o ++ [v])%list.
Proof.
  induction o as [|[k' v'] o IH]; simpl; [reflexivity|].
  destruct (String.eqb_spec k' k); [discriminate|].
  intros H. simpl. now rewrite (IH H).
Qed.
End Properties.

(** Pushing onto one bucket adds one element to the buckets taken
    together. *)
Lemma concat_values_push {A : Type} (o : Obj.t (list A)) k b x :
  Obj.get o k = Some b ->
  Permutation (List.concat (Obj.values (Obj.set o k (b ++ [x])%list)))
              (x :: List.concat (Obj.values o)).
Proof.
  induction o as [|[k' b'] o IH]; simpl; [discriminate|].
  destruct (String.eqb_spec k' k) as [->|Hne].
  - intros [= ->]. simpl. rewrite <- app_assoc. simpl.
    symmetry. apply Permutation_middle.
  - intros H. simpl.
    rewrite (IH H). symmetry. apply Permutation_middle.
Qed.
End ObjFacts.

(** ** The grouping loop *)

Section Grouping.

Variable newDate : string -> Date.
Variable getMonthName : JS.number -> string.

Local Abbreviation label := (groupDate newDate getMonthName).

(** One round of the loop never throws; it appends the record to the
    bucket of its label and leaves the other buckets alone. *)
Lemma group_record_spec o data :
  well_formed o ->
  exists o',
    group_record newDate getMonthName o data = JS.Normal o'
    /\ well_formed o'
    /\ (forall k, bucket o' k
                  = (bucket o k ++ labelled label k [data])%list)
    /\ Permutation (List.concat (Obj.values o'))
                   (data :: List.concat (Obj.values o)).
Proof.
  intros [Hnd Hne]. unfold group_record.
  destruct (Obj.get o (label data)) as [b|] eqn:Hget.
  - rewrite Hget. eexists; split; [reflexivity|]. repeat split.
    + now rewrite (ObjFacts.keys_set_old _ _ _ _ Hget).
    + intros k. destruct (String.eqb_spec (label data) k) as [<-|Hk].
      * rewrite ObjFacts.get_set_same. intros [= H].
        now destruct b.
      * rewrite ObjFacts.get_set_other by assumption. apply Hne.
    + intros k. unfold bucket, labelled. simpl.
      destruct (String.eqb_spec (label data) k) as [<-|Hk].
      * now rewrite ObjFacts.get_set_same, Hget.
      * rewrite ObjFacts.get_set_other by assumption.
        now rewrite app_nil_r.
    + now apply ObjFacts.concat_values_push.
  - rewrite ObjFacts.get_set_same.
    assert (Hfresh : Obj.get (Obj.set o (label data) []) (label data) = Some [])
      by apply ObjFacts.get_set_same.
    eexists; split; [reflexivity|]. repeat split.
    + rewrite (ObjFacts.keys_set_old _ _ _ _ Hfresh).
      rewrite (ObjFacts.keys_set_new _ _ _ Hget).
      apply NoDup_app; [assumption | repeat constructor; intros [] | ].
      intros k Hin [<-|[]]. now apply ObjFacts.get_None_keys in Hget.
    + intros k. destruct (String.eqb_spec (label data) k) as [<-|Hk].
      * rewrite ObjFacts.get_set_same. discriminate.
      * rewrite !ObjFacts.get_set_other by assumption. apply Hne.
    + intros k. unfold bucket, labelled. simpl.
      destruct (String.eqb_spec (label data) k) as [<-|Hk].
      * now rewrite ObjFacts.get_set_same, Hget.
      * rewrite !ObjFacts.get_set_other by assumption.
        now rewrite app_nil_r.
    + rewrite (ObjFacts.concat_values_push _ _ _ _ Hfresh).
      rewrite (ObjFacts.values_set_new _ _ _ Hget).
      now rewrite List.concat_app; simpl; rewrite !app_nil_r.
Qed.

(** The whole loop, from any well-formed object. *)
Lemma group_records_spec l : forall o,
  well_formed o ->
  exists o',
    group_records newDate getMonthName o l = JS.Normal o'
    /\ well_formed o'
    /\ (forall k, bucket o' k = (bucket o k ++ labelled label k l)%list)
    /\ Permutation (List.concat (Obj.values o'))
                   (List.concat (Obj.values o) ++ l).
Proof.
  induction l as [|data l IH]; intros o Hwf; simpl.
  - exists o. repeat split; try apply Hwf.
    + intros k. now rewrite app_nil_r.
    + now rewrite app_nil_r.
  - destruct (group_record_spec o data Hwf) as (o1 & -> & Hwf1 & Hb1 & Hp1).
    destruct (IH o1 Hwf1) as (o' & -> & Hwf' & Hb' & Hp').
    exists o'. repeat split; try apply Hwf'.
    + intros k. rewrite Hb', Hb1, <- app_assoc. f_equal.
      unfold labelled. simpl.
      now destruct (label data =? k)%string.
    + rewrite Hp'. rewrite Hp1. simpl. apply Permutation_middle.
Qed.

Lemma well_formed_empty : well_formed [].
Proof. split; [constructor | intros k; discriminate]. Qed.

(** The loop over a whole history: it completes, and the bucket of every
    key is the sub-list of the input carrying that label. *)
Lemma historyGroupByDate_spec l :
  exists o,
    historyGroupByDate newDate getMonthName l = JS.Normal o
    /\ NoDup (Obj.keys o)
    /\ (forall k b, Obj.get o k = Some b <-> b = labelled label k l /\ b <> [])
    /\ Permutation (List.concat (Obj.values o)) l.
Proof.
  destruct (group_records_spec l [] well_formed_empty)
    as (o & Ho & [Hnd Hne] & Hb & Hp).
  exists o. split; [exact Ho|]. split; [exact Hnd|]. split; [|exact Hp].
  intros k b. specialize (Hb k). unfold bucket in Hb. simpl in Hb.
  split.
  - intros Hk. rewrite Hk in Hb. split; [exact Hb|].
    intros ->. now apply (Hne k).
  - intros [-> Hnonempty].
    destruct (Obj.get o k); [now f_equal|].
    now rewrite <- Hb in Hnonempty.
Qed.

End Grouping.

(** ** Grouping: every record lands in exactly one bucket *)

(** C6: the grouping loop completes on every history (parseable times or
    not, empty or not), its keys are pairwise distinct, the buckets taken
    together are a rearrangement of the input (no record dropped, none
    duplicated), and the bucket sizes add up to the input length. *)
Theorem group_keeps_every_record
    (newDate : string -> Date) (getMonthName : JS.number -> string)
    (historyData : list RunHistoryData) :
  exists o,
    historyGroupByDate newDate getMonthName historyData = JS.Normal o
    /\ NoDup (Obj.keys o)
    /\ Permutation (List.concat (Obj.values o)) historyData
    /\ total_count o = List.length historyData.
Proof.
  destruct (historyGroupByDate_spec newDate getMonthName historyData)
    as (o & Ho & Hnd & _ & Hperm).
  exists o. repeat split; try assumption.
  unfold total_count. rewrite <- length_concat.
  now apply Permutation_length.
Qed.

(** C7: two records of the input whose dates fall on the same calendar day
    sit in one bucket, the one keyed by their common day label; and every
    bucket is the input filtered by its label, so its records keep the
    relative order they had in the input. *)
Theorem group_same_day_same_bucket
    (newDate : string -> Date) (getMonthName : JS.number -> string)
    (historyData : list RunHistoryData) (r1 r2 : RunHistoryData) :
  In r1 historyData ->
  In r2 historyData ->
  same_day (date_of newDate r1) (date_of newDate r2) ->
  exists o b,
    historyGroupByDate newDate getMonthName historyData = JS.Normal o
    /\ Obj.get o (groupDate newDate getMonthName r1) = Some b
    /\ In r1 b /\ In r2 b
    /\ forall k b',
         Obj.get o k = Some b' ->
         b' = filter (fun data =>
                        (groupDate newDate getMonthName data =? k)%string)
                     historyData.
Proof.
  intros Hin1 Hin2 (Hy & Hm & Hd).
  destruct (historyGroupByDate_spec newDate getMonthName historyData)
    as (o & Ho & _ & Hget & _).
  set (k := groupDate newDate getMonthName r1).
  assert (Hk2 : groupDate newDate getMonthName r2 = k).
  { unfold k, groupDate. now rewrite Hy, Hm, Hd. }
  assert (Hmem : forall r, In r historyData ->
                 groupDate newDate getMonthName r = k ->
                 In r (labelled (groupDate newDate getMonthName) k
                         historyData)).
  { intros r Hr Hl. apply filter_In. split; [assumption|].
    now apply String.eqb_eq. }
  exists o, (labelled (groupDate newDate getMonthName) k historyData).
  repeat split; try assumption.
  - apply Hget. split; [reflexivity|].
    intros Hnil. specialize (Hmem r1 Hin1 eq_refl).
    rewrite Hnil in Hmem. destruct Hmem.
  - now apply Hmem.
  - now apply Hmem.
  - intros k' b' Hb'. now apply Hget in Hb'.
Qed.

Lemma group_same_day_same_bucket_witness :
  exists o b,
    historyGroupByDate IsoDate.iso_newDate util_getMonthName three_runs
      = JS.Normal o
    /\ Obj.get o "5 June, 2024" = Some b
    /\ In (record "first" "2024-06-05 10:15:30" None) b
    /\ In (record "third" "2024-06-05 23:59:59.250000" (Some "v2")) b
    /\ forall k b',
         Obj.get o k = Some b' ->
         b' = filter (fun data =>
                        (groupDate IsoDate.iso_newDate util_getMonthName data
                         =? k)%string)
                     three_runs.
Proof.
  apply (group_same_day_same_bucket IsoDate.iso_newDate util_getMonthName
           three_runs
           (record "first" "2024-06-05 10:15:30" None)
           (record "third" "2024-06-05 23:59:59.250000" (Some "v2"))).
  - simpl; tauto.
  - simpl; tauto.
  - repeat split; reflexivity.
Defined.

(** ** Normalisation of the time text *)

Lemma replace_spaces_T_spaceless s :
  spaceless s = true -> JS.replace_spaces_T s = s.
Proof.
  induction s as [|c s IH]; simpl; [reflexivity|].
  intros H. apply andb_prop in H as [Hc Hs].
  destruct (Ascii.eqb c " "); [discriminate|]. now rewrite IH.
Qed.

Lemma replace_spaces_T_app s1 s2 :
  JS.replace_spaces_T (s1 ++ s2)
  = JS.replace_spaces_T s1 ++ JS.replace_spaces_T s2.
Proof.
  induction s1 as [|c s1 IH]; simpl; [reflexivity|]. now rewrite IH.
Qed.

(** The text handed to the parser has no space left, whatever the input. *)
Lemma replace_spaces_T_no_space s :
  spaceless (JS.replace_spaces_T s) = true.
Proof.
  induction s as [|c s IH]; simpl; [reflexivity|].
  rewrite IH, andb_true_r.
  destruct (Ascii.eqb c " ") eqn:E; [reflexivity | now rewrite E].
Qed.




(** ** The click handler *)





(** C1, as stated, fails: for the tagged record of run [acme] with tag
    [v1.2], on a filter view with all its widgets, the handler sets two
    predicates, the run name and the composite tag, not the tag alone. *)
Lemma snapshot_sets_run_name_too :
  JS.truthy (versionTag acme_snapshot) = true
  /\ predicates
       (fst (Effect.run (onRunHistoryClick IsoDate.iso_newDate fullFilterView
                           acme_snapshot)))
     = [ runNameFilter_select "acme"; runHistoryTagFilter_select "acme:v1.2" ]
  /\ predicates
       (fst (Effect.run (onRunHistoryClick IsoDate.iso_newDate fullFilterView
                           acme_snapshot)))
     <> [ runHistoryTagFilter_select "acme:v1.2" ].
Proof. repeat split. discriminate. Qed.

(** C1, amended: for a record whose version tag is present, on a filter
    view that has its tag widget, the handler completes and sets the
    composite tag selector, run name then a colon then the tag, after the
    run-name predicate when the view has a run-name widget, and nothing
    else: no detection status and no detection date. *)
Theorem snapshot_sets_tag_and_run_name
    (newDate : string -> Date) (filter : BugFilterView) (wt : FilterWidget)
    (item : RunHistoryData) (tag : string) :
  versionTag item = Some tag ->
  tag <> "" ->
  _runHistoryTagFilter filter = Some wt ->
  let result := Effect.run (onRunHistoryClick newDate filter item) in
  snd result = JS.Normal tt
  /\ predicates (fst result)
     = ((match _runNameFilter filter with
         | Some _ => [ runNameFilter_select (runName item) ]
         | None => []
         end)
        ++ [ runHistoryTagFilter_select (runName item ++ ":" ++ tag) ])%list
  /\ (forall value, ~ In (detectionStatusFilter_select value) (fst result))
  /\ (forall fixedDate,
        ~ In (detectionDateFilter_initFixedDateInterval fixedDate)
             (fst result)).
Proof.
  intros Htag Hne Ht. run_handler. rewrite Htag, Ht. simpl.
  destruct (String.eqb_spec tag "") as [->|_]; [contradiction|].
  destruct (_runNameFilter filter); simpl; repeat split;
    intros v H; repeat (destruct H as [H|H]; [discriminate H|]); exact H.
Qed.

Lemma snapshot_sets_tag_and_run_name_witness :
  let result :=
    Effect.run (onRunHistoryClick IsoDate.iso_newDate fullFilterView
                  acme_snapshot) in
  snd result = JS.Normal tt
  /\ predicates (fst result)
     = [ runNameFilter_select "acme"; runHistoryTagFilter_select "acme:v1.2" ]
  /\ (forall value, ~ In (detectionStatusFilter_select value) (fst result))
  /\ (forall fixedDate,
        ~ In (detectionDateFilter_initFixedDateInterval fixedDate)
             (fst result)).
Proof.
  apply (snapshot_sets_tag_and_run_name IsoDate.iso_newDate fullFilterView
           widget acme_snapshot "v1.2");
    [reflexivity | discriminate | reflexivity].
Defined.

(** C4, as stated, fails: a record without version tag whose time is not a
    date is projected without any failure; the handler completes, having
    reset the view, set the run name and the three statuses, fixed the
    detection date to the text an invalid date formats to, broadcast and
    cleared the hash value. *)
Lemma unparseable_time_does_not_fail :
  date_of IsoDate.iso_newDate acme_unparseable = InvalidDate
  /\ JS.truthy (versionTag acme_unparseable) = false
  /\ Effect.run (onRunHistoryClick IsoDate.iso_newDate fullFilterView
                   acme_unparseable)
     = ([ clearAll;
          runNameFilter_select "acme";
          detectionStatusFilter_select "New";
          detectionStatusFilter_select "Unresolved";
          detectionStatusFilter_select "Reopened";
          detectionDateFilter_initFixedDateInterval
            "NaN-0NaN-0NaN NaN:NaN:NaN";
          notifyAll;
          hashHelper_setStateValues_subtab_null ],
        JS.Normal tt).
Proof. repeat split. Qed.

(** C4, amended: when the time of a record does not parse (the parser
    answers Invalid Date, it does not throw), projection does not fail in
    either variant.  Without version tag, on a view with its status and date
    widgets, the handler completes after the reset, the run name (if the
    view has that widget), the three statuses, the detection date fixed to
    the text [NaN-0NaN-0NaN NaN:NaN:NaN], the broadcast and the hash
    clearing.  With a version tag the handler does not read the time: its
    run is the same under any parser and any other time text. *)
Theorem unparseable_time_projection
    (newDate : string -> Date) (filter : BugFilterView)
    (item : RunHistoryData) :
  date_of newDate item = InvalidDate ->
  (JS.truthy (versionTag item) = false ->
   forall ws wd,
     _detectionStatusFilter filter = Some ws ->
     _detectionDateFilter filter = Some wd ->
     Effect.run (onRunHistoryClick newDate filter item)
     = ((clearAll
         :: (match _runNameFilter filter with
             | Some _ => [ runNameFilter_select (runName item) ]
             | None => []
             end)
         ++ [ detectionStatusFilter_select (stateConverter ws NEW);
              detectionStatusFilter_select (stateConverter ws UNRESOLVED);
              detectionStatusFilter_select (stateConverter ws REOPENED);
              detectionDateFilter_initFixedDateInterval
                "NaN-0NaN-0NaN NaN:NaN:NaN";
              notifyAll;
              hashHelper_setStateValues_subtab_null ])%list,
        JS.Normal tt))
  /\ (JS.truthy (versionTag item) = true ->
      forall (newDate' : string -> Date) (t' : string),
        Effect.run (onRunHistoryClick newDate filter item)
        = Effect.run (onRunHistoryClick newDate' filter (with_time t' item))).
Proof.
  intros Hinvalid. split.
  - intros Htag ws wd Hs Hd. run_handler.
    rewrite Htag, Hs, Hd, Hinvalid.
    destruct (_runNameFilter filter); reflexivity.
  - intros Htag newDate' t'. run_handler. simpl. rewrite Htag. reflexivity.
Qed.

Lemma unparseable_time_projection_witness :
  date_of IsoDate.iso_newDate acme_unparseable = InvalidDate
  /\ Effect.run (onRunHistoryClick IsoDate.iso_newDate fullFilterView
                   acme_unparseable)
     = ([ clearAll;
          runNameFilter_select "acme";
          detectionStatusFilter_select "New";
          detectionStatusFilter_select "Unresolved";
          detectionStatusFilter_select "Reopened";
          detectionDateFilter_initFixedDateInterval
            "NaN-0NaN-0NaN NaN:NaN:NaN";
          notifyAll;
          hashHelper_setStateValues_subtab_null ],
        JS.Normal tt).
Proof.
  split; [reflexivity|].
  apply (proj1 (unparseable_time_projection IsoDate.iso_newDate
                  fullFilterView acme_unparseable eq_refl)
           eq_refl widget widget eq_refl eq_refl).
Defined.

(** C10: on a filter view without run-name widget the handler does not
    fail for that reason; it skips the run-name selection only and still
    resets, sets the other predicates of the variant, broadcasts once and
    clears the hash value.  No other widget is guarded: without version tag
    a missing status widget or a missing date widget makes the handler
    throw, and with a version tag a missing tag widget does; a handler that
    throws never broadcasts. *)
Theorem only_run_name_widget_is_guarded
    (newDate : string -> Date) (filter : BugFilterView)
    (item : RunHistoryData) :
  let result := Effect.run (onRunHistoryClick newDate filter item) in
  (_runNameFilter filter = None ->
   JS.truthy (versionTag item) = false ->
   forall ws wd,
     _detectionStatusFilter filter = Some ws ->
     _detectionDateFilter filter = Some wd ->
     result
     = ([ clearAll;
          detectionStatusFilter_select (stateConverter ws NEW);
          detectionStatusFilter_select (stateConverter ws UNRESOLVED);
          detectionStatusFilter_select (stateConverter ws REOPENED);
          detectionDateFilter_initFixedDateInterval
            (_formatDate (date_of newDate item));
          notifyAll;
          hashHelper_setStateValues_subtab_null ],
        JS.Normal tt))
  /\ (_runNameFilter filter = None ->
      JS.truthy (versionTag item) = true ->
      forall wt,
        _runHistoryTagFilter filter = Some wt ->
        result
        = ([ clearAll;
             runHistoryTagFilter_select
               (runName item ++ ":" ++ JS.text (versionTag item));
             notifyAll;
             hashHelper_setStateValues_subtab_null ],
           JS.Normal tt))
  /\ (JS.truthy (versionTag item) = false ->
      _detectionStatusFilter filter = None ->
      snd result = JS.TypeError "select" /\ broadcasts (fst result) = 0%nat)
  /\ (JS.truthy (versionTag item) = false ->
      forall ws,
        _detectionStatusFilter filter = Some ws ->
        _detectionDateFilter filter = None ->
        snd result = JS.TypeError "initFixedDateInterval"
        /\ broadcasts (fst result) = 0%nat)
  /\ (JS.truthy (versionTag item) = true ->
      _runHistoryTagFilter filter = None ->
      snd result = JS.TypeError "select" /\ broadcasts (fst result) = 0%nat).
Proof.
  run_handler. split; [|split; [|split; [|split]]].
  - intros Hr Htag ws wd Hs Hd. now rewrite Hr, Htag, Hs, Hd.
  - intros Hr Htag wt Ht. now rewrite Hr, Htag, Ht.
  - intros Htag Hs. rewrite Htag, Hs.
    now destruct (_runNameFilter filter).
  - intros Htag ws Hs Hd. rewrite Htag, Hs, Hd.
    now destruct (_runNameFilter filter).
  - intros Htag Ht. rewrite Htag, Ht.
    now destruct (_runNameFilter filter).
Qed.

Lemma only_run_name_widget_is_guarded_witness :
  Effect.run (onRunHistoryClick IsoDate.iso_newDate viewWithoutRunName
                acme_incremental)
  = ([ clearAll;
       detectionStatusFilter_select "New";
       detectionStatusFilter_select "Unresolved";
       detectionStatusFilter_select "Reopened";
       detectionDateFilter_initFixedDateInterval "2024-06-05 10:15:30";
       notifyAll;
       hashHelper_setStateValues_subtab_null ],
     JS.Normal tt)
  /\ snd (Effect.run (onRunHistoryClick IsoDate.iso_newDate
                        viewWithRunNameOnly acme_snapshot))
     = JS.TypeError "select".
Proof.
  split.
  - apply (proj1 (only_run_name_widget_is_guarded IsoDate.iso_newDate
                    viewWithoutRunName acme_incremental)
             eq_refl eq_refl widget widget eq_refl eq_refl).
  - apply (proj2 (proj2 (proj2 (proj2
             (only_run_name_widget_is_guarded IsoDate.iso_newDate
                viewWithRunNameOnly acme_snapshot))))
             eq_refl eq_refl).
Defined.

(** ** [_formatDate] on valid dates *)

(** The text of a valid date, field by field: the date part, a space, the
    time part. *)
Lemma formatDate_fields (f : DateFields) :
  _formatDate (ValidDate f)
  = (JS.ToString (JS.Num (year f)) ++ "-"
     ++ ((if 9 <? month f + 1 then "" else "0")
         ++ JS.ToString (JS.Num (month f + 1))) ++ "-"
     ++ ((if 9 <? day f then "" else "0") ++ JS.ToString (JS.Num (day f))))
    ++ " "
    ++ (JS.ToString (JS.Num (hours f)) ++ ":"
        ++ JS.ToString (JS.Num (minutes f)) ++ ":"
        ++ JS.ToString
             (JS.Num (seconds f + (if 0 <? milliseconds f then 1 else 0)))).
Proof.
  unfold _formatDate. simpl.
  destruct (0 <? milliseconds f); reflexivity.
Qed.

(** A number between 0 and 99 behind its optional zero takes two
    characters: this is how month and day are written. *)
Lemma two_digits (n : Z) :
  0 <= n <= 99 ->
  String.length ((if 9 <? n then "" else "0") ++ JS.ToString (JS.Num n))
  = 2%nat.
Proof.
  intros H.
  assert (Hn : n = Z.of_nat (Z.to_nat n)) by lia.
  assert (Hb : (Z.to_nat n < 100)%nat) by lia.
  rewrite Hn. generalize dependent (Z.to_nat n). clear.
  intros m _ Hm.
  do 100 (destruct m as [|m]; [reflexivity|]). lia.
Qed.

(** At second 59 with milliseconds left, the seconds are written 60 and
    the minutes are those of the date: nothing is carried. *)
Lemma formatDate_second_59 (f : DateFields) :
  seconds f = 59 ->
  0 < milliseconds f ->
  exists date_part,
    _formatDate (ValidDate f)
    = date_part ++ " "
      ++ JS.ToString (JS.Num (hours f)) ++ ":"
      ++ JS.ToString (JS.Num (minutes f)) ++ ":60".
Proof.
  intros Hs Hms. rewrite formatDate_fields, Hs.
  apply Z.ltb_lt in Hms. rewrite Hms. eexists. reflexivity.
Qed.

(** C2: the handler's date for a time at second 59 with a fraction.  The
    time 10:15:59.900 is written with seconds 60 and minute 15; rounding up
    to the next whole second would give 10:16:00. *)
Theorem formatDate_second_59_no_carry :
  date_of IsoDate.iso_newDate (record "acme" "2024-06-05 10:15:59.900" None)
  = ValidDate (mkDateFields 2024 5 5 10 15 59 900)
  /\ _formatDate
       (date_of IsoDate.iso_newDate
          (record "acme" "2024-06-05 10:15:59.900" None))
     = "2024-06-05 10:15:60".
Proof. split; reflexivity. Qed.

(** C3: the handler's date for a time with one-digit hour, minute and
    second.  Month and day are written with two digits, the time fields are
    not: 09:05:03 comes out as 9:5:3. *)
Theorem formatDate_time_fields_not_padded :
  date_of IsoDate.iso_newDate (record "acme" "2024-06-05 09:05:03" None)
  = ValidDate (mkDateFields 2024 5 5 9 5 3 0)
  /\ _formatDate
       (date_of IsoDate.iso_newDate
          (record "acme" "2024-06-05 09:05:03" None))
     = "2024-06-05 9:5:3".
Proof. split; reflexivity. Qed.

(** ** Further facts about the grouping loop *)

Lemma filter_filter {A : Type} (p q : A -> bool) (l : list A) :
  List.filter p (List.filter q l) = List.filter (fun a => q a && p a) l.
Proof.
  induction l as [|a l IH]; simpl; [reflexivity|].
  destruct (q a); simpl; [destruct (p a)|]; now rewrite IH.
Qed.

Lemma filter_first_occurrences (p : string -> bool) (l : list string) :
  List.filter p (first_occurrences l) = first_occurrences (List.filter p l).
Proof.
  induction l as [|k l IH]; simpl; [reflexivity|].
  destruct (p k) eqn:Hp; simpl.
  - f_equal. rewrite <- IH.
    rewrite !filter_filter. apply filter_ext. intros a. apply andb_comm.
  - rewrite <- IH. rewrite filter_filter. apply filter_ext_in.
    intros a _. destruct (String.eqb_spec a k) as [->|_]; simpl;
      [now rewrite Hp | reflexivity].
Qed.

Lemma among_spec (keys : list string) (k : string) :
  among keys k = true <-> In k keys.
Proof.
  unfold among. rewrite existsb_exists. split.
  - intros (x & Hin & Heq). apply String.eqb_eq in Heq. now subst.
  - intros Hin. exists k. split; [assumption | apply String.eqb_refl].
Qed.

Lemma in_first_occurrences (l : list string) (k : string) :
  In k (first_occurrences l) <-> In k l.
Proof.
  induction l as [|k' l IH]; simpl; [tauto|].
  rewrite filter_In, IH.
  destruct (String.eqb_spec k k') as [->|Hne]; simpl; intuition congruence.
Qed.

Lemma first_occurrences_length (l : list string) :
  (List.length (first_occurrences l) <= List.length l)%nat.
Proof.
  induction l as [|k l IH]; simpl; [lia|].
  pose proof (filter_length_le (fun k' => negb (k' =? k)%string)
                (first_occurrences l)).
  lia.
Qed.

Section GroupingOrder.

Variable newDate : string -> Date.
Variable getMonthName : JS.number -> string.

Local Abbreviation label := (groupDate newDate getMonthName).

(** One round of the loop adds the label of the record as last key when it
    is new, and leaves the keys alone otherwise. *)
Lemma group_record_keys o data :
  exists o',
    group_record newDate getMonthName o data = JS.Normal o'
    /\ Obj.keys o'
       = if among (Obj.keys o) (label data) then Obj.keys o
         else (Obj.keys o ++ [label data])%list.
Proof.
  unfold group_record.
  destruct (Obj.get o (label data)) as [b|] eqn:Hget.
  - rewrite Hget. eexists; split; [reflexivity|].
    rewrite (ObjFacts.keys_set_old _ _ _ _ Hget).
    destruct (among (Obj.keys o) (label data)) eqn:Hm; [reflexivity|].
    assert (Hin : In (label data) (Obj.keys o)).
    { destruct (in_dec string_dec (label data) (Obj.keys o)) as [H|H];
        [exact H|].
      apply ObjFacts.get_None_keys in H. congruence. }
    apply among_spec in Hin. congruence.
  - rewrite ObjFacts.get_set_same. eexists; split; [reflexivity|].
    rewrite (ObjFacts.keys_set_old _ _ _ [] (ObjFacts.get_set_same _ _ _)).
    rewrite (ObjFacts.keys_set_new _ _ _ Hget).
    destruct (among (Obj.keys o) (label data)) eqn:Hm; [|reflexivity].
    apply among_spec in Hm. now apply ObjFacts.get_None_keys in Hget.
Qed.

Lemma group_records_keys l : forall o,
  exists o',
    group_records newDate getMonthName o l = JS.Normal o'
    /\ Obj.keys o'
       = (Obj.keys o
          ++ first_occurrences
               (List.filter (fun k => negb (among (Obj.keys o) k))
                  (map label l)))%list.
Proof.
  induction l as [|data l IH]; intros o; simpl.
  - exists o. now rewrite app_nil_r.
  - destruct (group_record_keys o data) as (o1 & -> & Hk1).
    destruct (IH o1) as (o' & -> & Hk'). exists o'. split; [reflexivity|].
    rewrite Hk', Hk1.
    destruct (among (Obj.keys o) (label data)) eqn:Hm; simpl; [reflexivity|].
    rewrite <- app_assoc. simpl. do 2 f_equal.
    rewrite filter_first_occurrences, filter_filter. f_equal.
    apply filter_ext. intros k. unfold among at 1.
    rewrite existsb_app. simpl. fold (among (Obj.keys o) k).
    rewrite orb_false_r, negb_orb. f_equal.
Qed.

End GroupingOrder.

(** The keys of a whole grouping. *)
Lemma historyGroupByDate_keys
    (newDate : string -> Date) (getMonthName : JS.number -> string)
    (historyData : list RunHistoryData) :
  exists o,
    historyGroupByDate newDate getMonthName historyData = JS.Normal o
    /\ Obj.keys o
       = first_occurrences
           (map (groupDate newDate getMonthName) historyData).
Proof.
  destruct (group_records_keys newDate getMonthName historyData [])
    as (o & Ho & Hk).
  exists o. split; [exact Ho|]. rewrite Hk. simpl. f_equal.
  apply filter_true.
Qed.

(** X1: the keys of the grouping, in the order [Object.keys] lists them,
    are the day labels of the input, each once, in the order of their first
    occurrence: the day groups follow the input, they are not sorted. *)
Theorem group_keys_in_first_seen_order
    (newDate : string -> Date) (getMonthName : JS.number -> string)
    (historyData : list RunHistoryData) :
  exists o,
    historyGroupByDate newDate getMonthName historyData = JS.Normal o
    /\ Obj.keys o
       = first_occurrences
           (map (groupDate newDate getMonthName) historyData)
    /\ NoDup (Obj.keys o).
Proof.
  destruct (historyGroupByDate_keys newDate getMonthName historyData)
    as (o & Ho & Hk).
  destruct (historyGroupByDate_spec newDate getMonthName historyData)
    as (o' & Ho' & Hnd & _).
  rewrite Ho in Ho'. injection Ho' as <-.
  exists o. repeat split; assumption.
Qed.

(** X2: the grouping has a key exactly for the labels that occur in the
    input, no bucket is empty, and there are at most as many buckets as
    records. *)
Theorem group_keys_are_input_labels
    (newDate : string -> Date) (getMonthName : JS.number -> string)
    (historyData : list RunHistoryData) :
  exists o,
    historyGroupByDate newDate getMonthName historyData = JS.Normal o
    /\ (forall k,
          In k (Obj.keys o)
          <-> exists data,
                In data historyData
                /\ groupDate newDate getMonthName data = k)
    /\ (forall k b, Obj.get o k = Some b -> b <> [])
    /\ (List.length (Obj.keys o) <= List.length historyData)%nat.
Proof.
  destruct (historyGroupByDate_keys newDate getMonthName historyData)
    as (o & Ho & Hk).
  destruct (historyGroupByDate_spec newDate getMonthName historyData)
    as (o' & Ho' & _ & Hget & _).
  rewrite Ho in Ho'. injection Ho' as <-.
  exists o. split; [exact Ho|]. split; [|split].
  - intros k. rewrite Hk, in_first_occurrences, in_map_iff.
    split; intros (data & H1 & H2); exists data; tauto.
  - intros k b Hb. now apply Hget in Hb.
  - rewrite Hk.
    etransitivity; [apply first_occurrences_length|].
    now rewrite length_map.
Qed.

(** X3: a time that does not parse does not stop the grouping.  Every
    record whose date is invalid lands in the bucket of the label made of
    NaN, the month name of NaN and NaN, and that bucket holds exactly the
    records with that label, in input order. *)
Theorem group_collects_invalid_dates
    (newDate : string -> Date) (getMonthName : JS.number -> string)
    (historyData : list RunHistoryData) (data : RunHistoryData) :
  In data historyData ->
  date_of newDate data = InvalidDate ->
  exists o b,
    historyGroupByDate newDate getMonthName historyData = JS.Normal o
    /\ Obj.get o ("NaN " ++ getMonthName JS.NaN ++ ", NaN") = Some b
    /\ In data b
    /\ (forall data',
          In data' historyData ->
          date_of newDate data' = InvalidDate ->
          In data' b).
Proof.
  intros Hin Hinv.
  destruct (historyGroupByDate_spec newDate getMonthName historyData)
    as (o & Ho & _ & Hget & _).
  set (k := "NaN " ++ getMonthName JS.NaN ++ ", NaN").
  assert (Hlabel : forall d, date_of newDate d = InvalidDate ->
                             groupDate newDate getMonthName d = k).
  { intros d Hd. unfold groupDate. rewrite Hd. reflexivity. }
  assert (Hmem : forall d, In d historyData ->
                 date_of newDate d = InvalidDate ->
                 In d (labelled (groupDate newDate getMonthName) k
                         historyData)).
  { intros d Hd Hi. apply filter_In. split; [exact Hd|].
    apply String.eqb_eq. now apply Hlabel. }
  exists o, (labelled (groupDate newDate getMonthName) k historyData).
  split; [exact Ho|]. split; [|split].
  - apply Hget. split; [reflexivity|].
    intros Hnil. specialize (Hmem data Hin Hinv). rewrite Hnil in Hmem.
    destruct Hmem.
  - now apply Hmem.
  - exact Hmem.
Qed.

Lemma group_collects_invalid_dates_witness :
  exists o b,
    historyGroupByDate IsoDate.iso_newDate util_getMonthName
      [ acme_incremental; acme_unparseable ] = JS.Normal o
    /\ Obj.get o "NaN undefined, NaN" = Some b
    /\ In acme_unparseable b
    /\ (forall data',
          In data' [ acme_incremental; acme_unparseable ] ->
          date_of IsoDate.iso_newDate data' = InvalidDate ->
          In data' b).
Proof.
  apply (group_collects_invalid_dates IsoDate.iso_newDate util_getMonthName
           [ acme_incremental; acme_unparseable ] acme_unparseable).
  - simpl; tauto.
  - reflexivity.
Defined.

(** ** Day labels tell days apart *)

Lemma string_of_uint_spaceless (d : Decimal.uint) :
  spaceless (NilEmpty.string_of_uint d) = true.
Proof. induction d; simpl; auto. Qed.

(** The decimal text of a number holds no space. *)
Lemma ToString_Num_spaceless (z : Z) :
  spaceless (JS.ToString (JS.Num z)) = true.
Proof.
  unfold JS.ToString, NilZero.string_of_int, NilZero.string_of_uint.
  destruct (Z.to_int z) as [d|d]; destruct d; simpl;
    auto using string_of_uint_spaceless.
Qed.

(** Different numbers have different decimal texts. *)
Lemma ToString_Num_inj (a b : Z) :
  JS.ToString (JS.Num a) = JS.ToString (JS.Num b) -> a = b.
Proof.
  unfold JS.ToString. intros H.
  assert (Hnil : forall z, Z.to_int z <> Decimal.Pos Decimal.Nil
                           /\ Z.to_int z <> Decimal.Neg Decimal.Nil).
  { intros [|p|p]; simpl; split; try discriminate;
      intros [= Hp]; now apply DecimalPos.Unsigned.to_uint_nonnil in Hp. }
  apply DecimalZ.to_int_inj.
  assert (Ha := NilZero.isi (Z.to_int a) (proj1 (Hnil a)) (proj2 (Hnil a))).
  assert (Hb := NilZero.isi (Z.to_int b) (proj1 (Hnil b)) (proj2 (Hnil b))).
  rewrite H in Ha. congruence.
Qed.

(** Two texts cut at their first space agree part by part. *)
Lemma split_first_space (a a' b b' : string) :
  spaceless a = true -> spaceless a' = true ->
  a ++ " " ++ b = a' ++ " " ++ b' -> a = a' /\ b = b'.
Proof.
  revert a'. induction a as [|c a IH]; intros [|c' a']; simpl.
  - intros _ _ [= ->]. tauto.
  - intros _ H [= <- _]. discriminate H.
  - intros H _ [= -> _]. discriminate H.
  - intros H H' [= -> Heq].
    apply andb_prop in H as [_ H]. apply andb_prop in H' as [_ H'].
    destruct (IH a' H H' Heq) as [-> ->]. tauto.
Qed.

Lemma spaceless_app (a b : string) :
  spaceless (a ++ b) = spaceless a && spaceless b.
Proof.
  induction a as [|c a IH]; simpl; [reflexivity|].
  now rewrite IH, andb_assoc.
Qed.

(** Two texts cut at their last space agree part by part. *)
Lemma split_last_space (a a' y y' : string) :
  spaceless y = true -> spaceless y' = true ->
  a ++ " " ++ y = a' ++ " " ++ y' -> a = a' /\ y = y'.
Proof.
  intros Hy Hy'. revert a'.
  induction a as [|c a IH]; intros [|c' a']; simpl.
  - intros [= ->]. tauto.
  - intros [= <- Heq]. rewrite Heq, spaceless_app in Hy.
    simpl in Hy. now rewrite andb_false_r in Hy.
  - intros [= -> Heq]. rewrite <- Heq, spaceless_app in Hy'.
    simpl in Hy'. now rewrite andb_false_r in Hy'.
  - intros [= -> Heq]. destruct (IH a' Heq) as [-> ->]. tauto.
Qed.

Lemma length_append (a b : string) :
  String.length (a ++ b) = (String.length a + String.length b)%nat.
Proof. induction a as [|c a IH]; simpl; [reflexivity | now rewrite IH]. Qed.

Lemma append_assoc (a b c : string) : (a ++ b) ++ c = a ++ b ++ c.
Proof. induction a as [|x a IH]; simpl; [reflexivity | now rewrite IH]. Qed.

Lemma append_inj_l (a a' c : string) :
  a ++ c = a' ++ c -> a = a'.
Proof.
  revert a'. induction a as [|x a IH]; intros [|x' a']; simpl.
  - reflexivity.
  - intros H. apply (f_equal String.length) in H. simpl in H.
    rewrite length_append in H. lia.
  - intros H. apply (f_equal String.length) in H. simpl in H.
    rewrite length_append in H. lia.
  - intros [= -> H]. f_equal. now apply IH.
Qed.

(** Equal day labels of two valid dates: same day of month, same year and
    the same month name. *)
Lemma groupDate_inj
    (newDate : string -> Date) (getMonthName : JS.number -> string)
    (r1 r2 : RunHistoryData) (f1 f2 : DateFields) :
  date_of newDate r1 = ValidDate f1 ->
  date_of newDate r2 = ValidDate f2 ->
  groupDate newDate getMonthName r1 = groupDate newDate getMonthName r2 ->
  day f1 = day f2
  /\ getMonthName (JS.Num (month f1)) = getMonthName (JS.Num (month f2))
  /\ year f1 = year f2.
Proof.
  intros H1 H2. unfold groupDate. rewrite H1, H2. simpl getter.
  unfold getDate, getMonth, getFullYear, getter.
  intros H.
  apply split_first_space in H as [Hd H];
    try apply ToString_Num_spaceless.
  apply ToString_Num_inj in Hd.
  assert (H' : (getMonthName (JS.Num (month f1)) ++ ",") ++ " "
                 ++ JS.ToString (JS.Num (year f1))
               = (getMonthName (JS.Num (month f2)) ++ ",") ++ " "
                 ++ JS.ToString (JS.Num (year f2))).
  { rewrite !append_assoc. exact H. }
  apply split_last_space in H' as [Hm Hy];
    try apply ToString_Num_spaceless.
  apply ToString_Num_inj in Hy. apply append_inj_l in Hm. tauto.
Qed.

(** X4: the grouping keeps days apart.  When the month names of the
    twelve months differ from one another, two records of one bucket whose
    dates are valid fall on the same calendar day: same year, same month,
    same day of month. *)
Theorem group_bucket_is_one_day
    (newDate : string -> Date) (getMonthName : JS.number -> string)
    (historyData : list RunHistoryData)
    (o : Obj.t (list RunHistoryData)) (k : string)
    (b : list RunHistoryData) (r1 r2 : RunHistoryData)
    (f1 f2 : DateFields) :
  (forall m1 m2, 0 <= m1 < 12 -> 0 <= m2 < 12 ->
     getMonthName (JS.Num m1) = getMonthName (JS.Num m2) -> m1 = m2) ->
  historyGroupByDate newDate getMonthName historyData = JS.Normal o ->
  Obj.get o k = Some b ->
  In r1 b -> In r2 b ->
  date_of newDate r1 = ValidDate f1 ->
  date_of newDate r2 = ValidDate f2 ->
  0 <= month f1 < 12 -> 0 <= month f2 < 12 ->
  same_day (date_of newDate r1) (date_of newDate r2).
Proof.
  intros Hinj Ho Hk Hr1 Hr2 H1 H2 Hm1 Hm2.
  destruct (historyGroupByDate_spec newDate getMonthName historyData)
    as (o' & Ho' & _ & Hget & _).
  rewrite Ho in Ho'. injection Ho' as <-.
  apply Hget in Hk as [-> _].
  apply filter_In in Hr1 as [_ Hl1]. apply filter_In in Hr2 as [_ Hl2].
  apply String.eqb_eq in Hl1, Hl2.
  destruct (groupDate_inj newDate getMonthName r1 r2 f1 f2 H1 H2)
    as (Hd & Hm & Hy); [congruence|].
  apply Hinj in Hm; [|assumption..].
  rewrite H1, H2. unfold same_day, getFullYear, getMonth, getDate, getter.
  repeat split; congruence.
Qed.

(** The twelve English month names differ from one another. *)
Lemma util_getMonthName_inj (m1 m2 : Z) :
  0 <= m1 < 12 -> 0 <= m2 < 12 ->
  util_getMonthName (JS.Num m1) = util_getMonthName (JS.Num m2) -> m1 = m2.
Proof.
  intros H1 H2.
  assert (E1 : m1 = Z.of_nat (Z.to_nat m1)) by lia.
  assert (E2 : m2 = Z.of_nat (Z.to_nat m2)) by lia.
  assert (B1 : (Z.to_nat m1 < 12)%nat) by lia.
  assert (B2 : (Z.to_nat m2 < 12)%nat) by lia.
  rewrite E1, E2. clear E1 E2 H1 H2.
  generalize dependent (Z.to_nat m2). generalize dependent (Z.to_nat m1).
  intros n1 B1 n2 B2.
  do 12 (destruct n1 as [|n1]; [
    do 12 (destruct n2 as [|n2]; [ (reflexivity || discriminate) |]); lia |]).
  lia.
Qed.

Lemma group_bucket_is_one_day_witness :
  same_day
    (date_of IsoDate.iso_newDate (record "first" "2024-06-05 10:15:30" None))
    (date_of IsoDate.iso_newDate
       (record "third" "2024-06-05 23:59:59.250000" (Some "v2"))).
Proof.
  apply (group_bucket_is_one_day IsoDate.iso_newDate util_getMonthName
           three_runs
           [ ("5 June, 2024",
              [ record "first" "2024-06-05 10:15:30" None;
                record "third" "2024-06-05 23:59:59.250000" (Some "v2") ]);
             ("6 June, 2024", [ record "second" "2024-06-06 08:00:00" None ]) ]
           "5 June, 2024"
           [ record "first" "2024-06-05 10:15:30" None;
             record "third" "2024-06-05 23:59:59.250000" (Some "v2") ]
           (record "first" "2024-06-05 10:15:30" None)
           (record "third" "2024-06-05 23:59:59.250000" (Some "v2"))
           (mkDateFields 2024 5 5 10 15 30 0)
           (mkDateFields 2024 5 5 23 59 59 250)).
  - exact util_getMonthName_inj.
  - reflexivity.
  - reflexivity.
  - simpl; tauto.
  - simpl; tauto.
  - reflexivity.
  - reflexivity.
  - simpl; lia.
  - simpl; lia.
Defined.

(** ** Further facts about the click handler *)

(** X5: an empty version tag counts as no version tag.  The handler treats
    a record whose [versionTag] is the empty text exactly as the same record
    without [versionTag]: it takes the incremental branch. *)
Theorem empty_version_tag_is_incremental
    (newDate : string -> Date) (filter : BugFilterView)
    (item : RunHistoryData) :
  versionTag item = Some "" ->
  Effect.run (onRunHistoryClick newDate filter item)
  = Effect.run (onRunHistoryClick newDate filter (with_versionTag None item)).
Proof.
  intros Htag. run_handler. unfold date_of. simpl. rewrite Htag. reflexivity.
Qed.

Lemma empty_version_tag_is_incremental_witness :
  Effect.run (onRunHistoryClick IsoDate.iso_newDate fullFilterView
                acme_empty_tag)
  = Effect.run (onRunHistoryClick IsoDate.iso_newDate fullFilterView
                  (with_versionTag None acme_empty_tag)).
Proof.
  apply (empty_version_tag_is_incremental IsoDate.iso_newDate fullFilterView
           acme_empty_tag).
  reflexivity.
Defined.

(** X6: the handler completes exactly when the widgets its variant reads
    are there; otherwise it throws the TypeError of reading a member of
    [undefined].  Nothing else makes it fail: not the time text, not the
    run name, not a missing run-name widget. *)
Theorem handler_completes_iff_widgets_present
    (newDate : string -> Date) (filter : BugFilterView)
    (item : RunHistoryData) :
  (snd (Effect.run (onRunHistoryClick newDate filter item)) = JS.Normal tt
   <-> variant_widgets_present filter item = true)
  /\ (variant_widgets_present filter item = false
      -> exists member,
           snd (Effect.run (onRunHistoryClick newDate filter item))
           = JS.TypeError member).
Proof.
  unfold variant_widgets_present. run_handler.
  destruct (JS.truthy (versionTag item)); simpl;
    destruct (_runNameFilter filter); simpl.
  1,2: destruct (_runHistoryTagFilter filter); simpl;
       (split; [split; (reflexivity || discriminate)|]);
       (discriminate
        || (intros _;
            first [ exists "select"; reflexivity
                  | exists "initFixedDateInterval"; reflexivity ])).
  all: destruct (_detectionStatusFilter filter); simpl;
       destruct (_detectionDateFilter filter); simpl;
       (split; [split; (reflexivity || discriminate)|]);
       (discriminate
        || (intros _;
            first [ exists "select"; reflexivity
                  | exists "initFixedDateInterval"; reflexivity ])).
Qed.

(** X7: a handler that throws has already reset the view and made the
    selections that come before the missing widget, and stops there: its
    calls are [clearAll] followed by selections only, with no broadcast and
    no clearing of the hash value.  When the date widget is the missing
    one, the run name and the three statuses are selected by then. *)
Theorem handler_failure_is_not_atomic
    (newDate : string -> Date) (filter : BugFilterView)
    (item : RunHistoryData) :
  variant_widgets_present filter item = false ->
  exists settings,
    fst (Effect.run (onRunHistoryClick newDate filter item))
    = clearAll :: settings
    /\ forallb is_predicate settings = true
    /\ (forall ws,
          JS.truthy (versionTag item) = false ->
          _detectionStatusFilter filter = Some ws ->
          settings
          = ((match _runNameFilter filter with
              | Some _ => [ runNameFilter_select (runName item) ]
              | None => []
              end)
             ++ [ detectionStatusFilter_select (stateConverter ws NEW);
                  detectionStatusFilter_select (stateConverter ws UNRESOLVED);
                  detectionStatusFilter_select (stateConverter ws REOPENED) ]
            )%list).
Proof.
  unfold variant_widgets_present. run_handler.
  destruct (JS.truthy (versionTag item)); simpl;
    destruct (_runNameFilter filter); simpl.
  1,2: destruct (_runHistoryTagFilter filter); simpl; [discriminate|];
       intros _; eexists; (split; [reflexivity|]); split;
       [reflexivity | discriminate].
  all: destruct (_detectionStatusFilter filter); simpl;
       destruct (_detectionDateFilter filter); simpl; try discriminate;
       intros _; eexists; (split; [reflexivity|]); split;
       try reflexivity; try discriminate;
       intros ws _ [= <-]; reflexivity.
Qed.

Lemma handler_failure_is_not_atomic_witness :
  exists settings,
    fst (Effect.run (onRunHistoryClick IsoDate.iso_newDate viewWithoutDate
                       acme_incremental))
    = clearAll :: settings
    /\ forallb is_predicate settings = true
    /\ (forall ws,
          JS.truthy (versionTag acme_incremental) = false ->
          _detectionStatusFilter viewWithoutDate = Some ws ->
          settings
          = ((match _runNameFilter viewWithoutDate with
              | Some _ => [ runNameFilter_select (runName acme_incremental) ]
              | None => []
              end)
             ++ [ detectionStatusFilter_select (stateConverter ws NEW);
                  detectionStatusFilter_select (stateConverter ws UNRESOLVED);
                  detectionStatusFilter_select (stateConverter ws REOPENED) ]
            )%list).
Proof.
  apply (handler_failure_is_not_atomic IsoDate.iso_newDate viewWithoutDate
           acme_incremental).
  reflexivity.
Defined.

(** ** Further facts about [_formatDate] *)

Lemma string_of_uint_digits_only (d : Decimal.uint) :
  digits_only (NilEmpty.string_of_uint d) = true.
Proof. induction d; simpl; auto. Qed.

(** The decimal text of a natural number is made of digits. *)
Lemma ToString_digits_only (z : Z) :
  0 <= z -> digits_only (JS.ToString (JS.Num z)) = true.
Proof.
  intros Hz. unfold JS.ToString.
  destruct z as [|p|p]; [reflexivity | | lia].
  simpl. unfold NilZero.string_of_uint.
  destruct (Pos.to_uint p); auto using string_of_uint_digits_only.
Qed.

Lemma digits_only_app (a b : string) :
  digits_only (a ++ b) = digits_only a && digits_only b.
Proof.
  induction a as [|c a IH]; simpl; [reflexivity|].
  destruct (IsoDate.digit c); [exact IH | reflexivity].
Qed.

(** Two texts of digits, each followed by the same character that is not a
    digit, agree part by part. *)
Lemma split_after_digits (c : ascii) (a a' b b' : string) :
  IsoDate.digit c = None ->
  digits_only a = true -> digits_only a' = true ->
  a ++ String c b = a' ++ String c b' -> a = a' /\ b = b'.
Proof.
  intros Hc. revert a'.
  induction a as [|x a IH]; intros [|x' a']; simpl.
  - intros _ _ [= ->]. tauto.
  - intros _ H [= <- _]. rewrite Hc in H. discriminate H.
  - intros H _ [= -> _]. rewrite Hc in H. discriminate H.
  - intros H H' [= -> Heq].
    destruct (IsoDate.digit x'); [|discriminate].
    destruct (IH a' H H' Heq) as [-> ->]. tauto.
Qed.

(** The decimal text of a number reads back as that number. *)
Lemma ToString_read_back (z : Z) :
  NilZero.int_of_string (JS.ToString (JS.Num z)) = Some (Z.to_int z).
Proof.
  unfold JS.ToString. apply NilZero.isi.
  - destruct z; simpl; try discriminate.
    intros [= Hp]. now apply DecimalPos.Unsigned.to_uint_nonnil in Hp.
  - destruct z; simpl; try discriminate.
    intros [= Hp]. now apply DecimalPos.Unsigned.to_uint_nonnil in Hp.
Qed.

(** The two-character writing of month and day tells numbers apart. *)
Lemma padded_text_inj (n n' : Z) :
  0 <= n -> 0 <= n' ->
  (if 9 <? n then "" else "0") ++ JS.ToString (JS.Num n)
  = (if 9 <? n' then "" else "0") ++ JS.ToString (JS.Num n') ->
  n = n'.
Proof.
  assert (Hmixed : forall a b, 9 < a -> 0 <= b <= 9 ->
            JS.ToString (JS.Num a) <> "0" ++ JS.ToString (JS.Num b)).
  { intros a b Ha Hb H.
    apply (f_equal NilZero.int_of_string) in H.
    rewrite ToString_read_back in H.
    assert (Hcases : b = 0 \/ b = 1 \/ b = 2 \/ b = 3 \/ b = 4 \/ b = 5
                     \/ b = 6 \/ b = 7 \/ b = 8 \/ b = 9) by lia.
    assert (Hread : forall t, NilZero.int_of_string t = Some (Z.to_int a) ->
                              a = match NilZero.int_of_string t with
                                  | Some d => Z.of_int d
                                  | None => a
                                  end).
    { intros t ->. now rewrite DecimalZ.of_to. }
    symmetry in H. apply Hread in H.
    repeat (destruct Hcases as [->|Hcases]); try subst b;
      vm_compute in H; lia. }
  intros Hn Hn'.
  destruct (Z.ltb_spec 9 n) as [H9|H9];
    destruct (Z.ltb_spec 9 n') as [H9'|H9']; simpl.
  - apply ToString_Num_inj.
  - intros H. exfalso. apply (Hmixed n n'); [lia | lia | exact H].
  - intros H. exfalso. apply (Hmixed n' n); [lia | lia | now symmetry].
  - intros [= H]. now apply ToString_Num_inj.
Qed.

Lemma padded_text_digits_only (n : Z) :
  0 <= n ->
  digits_only ((if 9 <? n then "" else "0") ++ JS.ToString (JS.Num n)) = true.
Proof.
  intros Hn. rewrite digits_only_app, (ToString_digits_only n Hn).
  now destruct (9 <? n).
Qed.

(** The text of a valid date as one chain of fields and separators. *)
Lemma formatDate_chain (f : DateFields) :
  _formatDate (ValidDate f)
  = JS.ToString (JS.Num (year f))
    ++ String "-"
         (((if 9 <? month f + 1 then "" else "0")
           ++ JS.ToString (JS.Num (month f + 1)))
          ++ String "-"
               (((if 9 <? day f then "" else "0")
                 ++ JS.ToString (JS.Num (day f)))
                ++ String " "
                     (JS.ToString (JS.Num (hours f))
                      ++ String ":"
                           (JS.ToString (JS.Num (minutes f))
                            ++ String ":"
                                 (JS.ToString
                                    (JS.Num (written_seconds f))))))).
Proof.
  rewrite formatDate_fields. unfold written_seconds.
  rewrite append_assoc. simpl. f_equal. f_equal.
  rewrite append_assoc. reflexivity.
Qed.

(** X8: the text of [_formatDate] identifies a valid date up to rounding.
    Two valid dates whose fields are natural numbers are written alike
    exactly when they agree on year, month, day, hours and minutes and on
    the seconds once one is added for left-over milliseconds; the
    milliseconds themselves are never written. *)
Theorem formatDate_identifies_rounded_second (f g : DateFields) :
  natural_fields f ->
  natural_fields g ->
  _formatDate (ValidDate f) = _formatDate (ValidDate g)
  <-> (year f = year g /\ month f = month g /\ day f = day g
       /\ hours f = hours g /\ minutes f = minutes g
       /\ written_seconds f = written_seconds g).
Proof.
  intros (Hy & Hm & Hd & Hh & Hmi & Hs) (Hy' & Hm' & Hd' & Hh' & Hmi' & Hs').
  rewrite !formatDate_chain. split.
  - intros H.
    apply split_after_digits in H as [Ey H];
      [| reflexivity | now apply ToString_digits_only..].
    apply split_after_digits in H as [Em H];
      [| reflexivity | apply padded_text_digits_only; lia..].
    apply split_after_digits in H as [Ed H];
      [| reflexivity | now apply padded_text_digits_only..].
    apply split_after_digits in H as [Eh H];
      [| reflexivity | now apply ToString_digits_only..].
    apply split_after_digits in H as [Emi H];
      [| reflexivity | now apply ToString_digits_only..].
    apply ToString_Num_inj in Ey, Eh, Emi, H.
    apply padded_text_inj in Em; [| lia..].
    apply padded_text_inj in Ed; [| lia..].
    repeat split; lia.
  - intros (-> & -> & -> & -> & -> & ->). reflexivity.
Qed.

Lemma formatDate_identifies_rounded_second_witness :
  _formatDate (ValidDate (mkDateFields 2024 5 5 10 15 30 250))
  = _formatDate (ValidDate (mkDateFields 2024 5 5 10 15 31 0))
  <-> (2024 = 2024 /\ 5 = 5 /\ 5 = 5 /\ 10 = 10 /\ 15 = 15
       /\ written_seconds (mkDateFields 2024 5 5 10 15 30 250)
          = written_seconds (mkDateFields 2024 5 5 10 15 31 0)).
Proof.
  apply (formatDate_identifies_rounded_second
           (mkDateFields 2024 5 5 10 15 30 250)
           (mkDateFields 2024 5 5 10 15 31 0));
    unfold natural_fields; simpl; lia.
Defined.

(** A year of four digits is written with four digits. *)
Lemma year_text_writes (y : Z) :
  1000 <= y <= 9999 -> writes 4 y (JS.ToString (JS.Num y)) = true.
Proof.
  intros Hy.
  assert (Hall : forallb (fun n => writes 4 (Z.of_nat n)
                                     (JS.ToString (JS.Num (Z.of_nat n))))
                   (seq (Z.to_nat 1000) (Z.to_nat 9000)) = true) by (vm_compute; reflexivity).
  rewrite forallb_forall in Hall.
  specialize (Hall (Z.to_nat y)). rewrite Z2Nat.id in Hall by lia.
  apply Hall. apply in_seq. lia.
Qed.

(** Month and day are written with two digits. *)
Lemma padded_text_writes (n : Z) :
  0 <= n <= 99 ->
  writes 2 n ((if 9 <? n then "" else "0") ++ JS.ToString (JS.Num n)) = true.
Proof.
  intros Hn.
  assert (Hall : forallb (fun k =>
                   writes 2 (Z.of_nat k)
                     ((if 9 <? Z.of_nat k then "" else "0")
                      ++ JS.ToString (JS.Num (Z.of_nat k))))
                   (seq 0 100) = true) by (vm_compute; reflexivity).
  rewrite forallb_forall in Hall.
  specialize (Hall (Z.to_nat n)). rewrite Z2Nat.id in Hall by lia.
  apply Hall. apply in_seq. lia.
Qed.

Lemma writes_spec (len : nat) (n : Z) (t : string) :
  writes len n t = true ->
  String.length t = len /\ IsoDate.number t = Some n.
Proof.
  unfold writes. intros H. apply andb_prop in H as [Hl Hn].
  apply Nat.eqb_eq in Hl. split; [exact Hl|].
  destruct (IsoDate.number t) as [m|]; [|discriminate].
  apply Z.eqb_eq in Hn. now subst.
Qed.

(** X9: the date half of the text has fixed width and reads back by
    position.  For a year of four digits, a month index from 0 to 11 and a
    day from 1 to 31, the first four characters are the year, characters 5
    and 6 the month counted from one, characters 8 and 9 the day, with
    hyphens at positions 4 and 7 and the space at position 10, whatever the
    time fields are. *)
Theorem formatDate_date_part_reads_back (f : DateFields) :
  1000 <= year f <= 9999 ->
  0 <= month f <= 11 ->
  1 <= day f <= 31 ->
  let text := _formatDate (ValidDate f) in
  IsoDate.field 0 4 text = Some (year f)
  /\ String.get 4 text = Some "-"%char
  /\ IsoDate.field 5 2 text = Some (month f + 1)
  /\ String.get 7 text = Some "-"%char
  /\ IsoDate.field 8 2 text = Some (day f)
  /\ String.get 10 text = Some " "%char.
Proof.
  intros Hy Hm Hd text. subst text. rewrite formatDate_chain.
  destruct (writes_spec _ _ _ (year_text_writes (year f) Hy)) as [Ly Ny].
  destruct (writes_spec _ _ _ (padded_text_writes (month f + 1)
                                 ltac:(lia))) as [Lm Nm].
  destruct (writes_spec _ _ _ (padded_text_writes (day f) ltac:(lia)))
    as [Ld Nd].
  revert Ly Ny Lm Nm Ld Nd.
  generalize (JS.ToString (JS.Num (year f))).
  generalize ((if 9 <? month f + 1 then "" else "0")
              ++ JS.ToString (JS.Num (month f + 1))).
  generalize ((if 9 <? day f then "" else "0")
              ++ JS.ToString (JS.Num (day f))).
  intros D M Y Ly Ny Lm Nm Ld Nd.
  destruct Y as [|y1 [|y2 [|y3 [|y4 [|? ?]]]]]; try discriminate Ly.
  destruct M as [|m1 [|m2 [|? ?]]]; try discriminate Lm.
  destruct D as [|d1 [|d2 [|? ?]]]; try discriminate Ld.
  unfold IsoDate.field. simpl.
  simpl in Ny, Nm, Nd. rewrite Ny, Nm, Nd. repeat split.
Qed.

Lemma formatDate_date_part_reads_back_witness :
  let text := _formatDate (ValidDate (mkDateFields 2024 5 5 9 5 3 0)) in
  IsoDate.field 0 4 text = Some 2024
  /\ String.get 4 text = Some "-"%char
  /\ IsoDate.field 5 2 text = Some 6
  /\ String.get 7 text = Some "-"%char
  /\ IsoDate.field 8 2 text = Some 5
  /\ String.get 10 text = Some " "%char.
Proof.
  apply (formatDate_date_part_reads_back (mkDateFields 2024 5 5 9 5 3 0));
    simpl; lia.
Defined.

(** ** Rendering the history table *)

(** A key of an object without repeated keys reads its own value. *)
Lemma get_of_member {V : Type} (o : Obj.t V) key v :
  NoDup (Obj.keys o) -> In (key, v) o -> Obj.get o key = Some v.
Proof.
  induction o as [|[k' v'] o IH]; simpl; [tauto|].
  intros Hnd [[= -> ->]|Hin].
  - now rewrite String.eqb_refl.
  - inversion Hnd as [|? ? Hnotin Hnd']; subst.
    destruct (String.eqb_spec k' key) as [->|_]; [|now apply IH].
    exfalso. apply Hnotin. unfold Obj.keys.
    change key with (fst (key, v)). now apply in_map.
Qed.

Lemma flat_map_singleton {A C : Type} (f : A -> C) (l : list A) :
  flat_map (fun a => [f a]) l = map f l.
Proof. induction l as [|a l IH]; simpl; [reflexivity | now rewrite IH]. Qed.

Lemma flat_map_filter {A : Type} (p : A -> bool) (l : list A) :
  flat_map (fun a => if p a then [a] else []) l = List.filter p l.
Proof.
  induction l as [|a l IH]; simpl; [reflexivity|].
  rewrite IH. now destruct (p a).
Qed.

Lemma filter_concat {A : Type} (p : A -> bool) (ls : list (list A)) :
  List.filter p (List.concat ls) = List.concat (map (List.filter p) ls).
Proof.
  induction ls as [|l ls IH]; simpl; [reflexivity|].
  now rewrite filter_app, IH.
Qed.

Section RenderingFacts.

Variable newDate : string -> Date.
Variable getMonthName : JS.number -> string.
Variable formatDateAMPM : Date -> string.
Variable domNode : nat.

Local Abbreviation label := (groupDate newDate getMonthName).
Local Abbreviation hcalls := (history_calls newDate formatDateAMPM).
Local Abbreviation bcalls := (bucket_calls newDate formatDateAMPM).
Local Abbreviation gcalls := (group_calls newDate formatDateAMPM domNode).
Local Abbreviation tcalls := (table_calls newDate formatDateAMPM domNode).

Ltac run_render :=
  cbv [render_history render_group dom.create dom.place util.createRunTag
       Render.bind Render.call Render.call_new Render.ret Render.member
       Render.next_node Render.calls fst snd];
  simpl.

(** One entry: it never throws, it takes [history_size] new nodes and adds
    its calls to those made before. *)
Lemma render_history_run n log content data :
  render_history newDate formatDateAMPM content data (Render.mkState n log)
  = (Render.mkState (history_size data + n)
       (log ++ hcalls n content data)%list,
     JS.Normal tt).
Proof.
  unfold history_calls, history_size. run_render.
  destruct (JS.truthy (versionTag data));
    destruct (JS.truthy (checkCommand data)); simpl;
    repeat rewrite <- app_assoc; reflexivity.
Qed.

(** The entries of one bucket. *)
Lemma render_bucket_run bucket : forall n log content,
  Render.forEach bucket (render_history newDate formatDateAMPM content)
    (Render.mkState n log)
  = (Render.mkState (bucket_size bucket + n)
       (log ++ bcalls n content bucket)%list,
     JS.Normal tt).
Proof.
  induction bucket as [|data bucket IH]; intros n log content.
  - simpl. unfold Render.ret. now rewrite app_nil_r.
  - simpl. unfold Render.bind at 1. rewrite render_history_run, IH.
    rewrite <- app_assoc.
    replace (bucket_size (data :: bucket) + n)%nat
      with (bucket_size bucket + (history_size data + n))%nat
      by (unfold bucket_size; simpl; lia).
    reflexivity.
Qed.

(** One day group, for a key that has a bucket. *)
Lemma render_group_run o key bucket n log :
  Obj.get o key = Some bucket ->
  render_group newDate formatDateAMPM domNode o key (Render.mkState n log)
  = (Render.mkState (bucket_size bucket + (3 + n))
       (log ++ gcalls n key bucket)%list,
     JS.Normal tt).
Proof.
  intros Hget. unfold render_group, group_calls.
  cbv [dom.create Render.bind Render.call_new Render.member
       Render.next_node Render.calls].
  rewrite Hget, render_bucket_run. simpl.
  repeat rewrite <- app_assoc. reflexivity.
Qed.

(** The groups of the keys [map fst groups], each key having its bucket. *)
Lemma render_groups_run o groups : forall n log,
  (forall key bucket, In (key, bucket) groups ->
     Obj.get o key = Some bucket) ->
  Render.forEach (map fst groups)
    (render_group newDate formatDateAMPM domNode o) (Render.mkState n log)
  = (Render.mkState (table_size groups + n)
       (log ++ tcalls n groups)%list,
     JS.Normal tt).
Proof.
  induction groups as [|[key bucket] groups IH]; intros n log Hget.
  - simpl. unfold Render.ret. now rewrite app_nil_r.
  - simpl. unfold Render.bind at 1.
    rewrite (render_group_run o key bucket) by (apply Hget; now left).
    rewrite IH by (intros k b Hin; apply Hget; now right).
    rewrite <- app_assoc.
    replace (table_size ((key, bucket) :: groups) + n)%nat
      with (table_size groups + (bucket_size bucket + (3 + n)))%nat
      by (unfold table_size; simpl; lia).
    reflexivity.
Qed.

(** The whole table: the renderer never throws; it makes the calls of the
    grouping, group after group, after those made before. *)
Lemma renderRunHistoryTable_run historyData n log :
  exists o,
    historyGroupByDate newDate getMonthName historyData = JS.Normal o
    /\ renderRunHistoryTable newDate getMonthName formatDateAMPM domNode
         historyData (Render.mkState n log)
       = (Render.mkState (table_size o + n) (log ++ tcalls n o)%list,
          JS.Normal tt).
Proof.
  destruct (historyGroupByDate_spec newDate getMonthName historyData)
    as (o & Ho & Hnd & _).
  exists o. split; [exact Ho|].
  unfold renderRunHistoryTable. rewrite Ho. unfold Obj.keys.
  apply render_groups_run. intros key bucket Hin.
  now apply get_of_member.
Qed.

(** *** Reading a list of calls *)

Section Observers.

Context {B : Type}.
Variable see : UiCall -> list B.
Variable of_record : RunHistoryData -> list B.
Variable of_key : string -> list B.

Hypothesis see_history :
  forall n content data, flat_map see (hcalls n content data) = of_record data.

Hypothesis see_frame :
  forall n key,
    flat_map see
      [ dom_create n "div"
          (mkAttrs (Some "history-group") None None None) domNode;
        dom_create (1 + n) "div"
          (mkAttrs (Some "header") None (Some key) None) n;
        dom_create (2 + n) "div"
          (mkAttrs (Some "content") None None None) n ]
    = of_key key.

Lemma see_bucket bucket : forall n content,
  flat_map see (bcalls n content bucket) = flat_map of_record bucket.
Proof.
  induction bucket as [|data bucket IH]; intros n content;
    [reflexivity|].
  change (bcalls n content (data :: bucket))
    with (hcalls n content data
          ++ bcalls (history_size data + n) content bucket)%list.
  now rewrite flat_map_app, see_history, IH.
Qed.

Lemma see_table groups : forall n,
  flat_map see (tcalls n groups)
  = flat_map (fun g => of_key (fst g) ++ flat_map of_record (snd g))%list
      groups.
Proof.
  induction groups as [|[key bucket] groups IH]; intros n;
    [reflexivity|].
  change (tcalls n ((key, bucket) :: groups))
    with (gcalls n key bucket
          ++ tcalls (bucket_size bucket + (3 + n)) groups)%list.
  unfold group_calls.
  rewrite !flat_map_app, see_frame, see_bucket, IH.
  reflexivity.
Qed.

End Observers.

Ltac see_history_calls :=
  let m := fresh "m" in
  let c := fresh "c" in
  let d := fresh "d" in
  intros m c d; unfold history_calls; run_render;
  destruct (JS.truthy (versionTag d));
  destruct (JS.truthy (checkCommand d)); reflexivity.



Lemma entry_records_table groups n :
  entry_records (tcalls n groups) = List.concat (map snd groups).
Proof.
  unfold entry_records.
  rewrite (see_table _ (fun data => [data]) (fun _ => []));
    [| see_history_calls | reflexivity].
  rewrite <- flat_map_concat_map. apply flat_map_ext. intros [key bucket].
  simpl. rewrite flat_map_singleton. apply map_id.
Qed.

Lemma checkCommand_links_table groups n :
  checkCommand_links (tcalls n groups)
  = List.filter (fun data => JS.truthy (checkCommand data))
      (List.concat (map snd groups)).
Proof.
  unfold checkCommand_links.
  rewrite (see_table _
             (fun data => if JS.truthy (checkCommand data)
                          then [data] else [])
             (fun _ => []));
    [| see_history_calls | reflexivity].
  rewrite filter_concat, map_map, <- flat_map_concat_map.
  apply flat_map_ext. intros [key bucket]. simpl. apply flat_map_filter.
Qed.

Lemma run_tags_table groups n :
  run_tags (tcalls n groups)
  = map (fun data => (runName data, JS.text (versionTag data)))
      (List.filter (fun data => JS.truthy (versionTag data))
         (List.concat (map snd groups))).
Proof.
  unfold run_tags.
  rewrite (see_table _
             (fun data => if JS.truthy (versionTag data)
                          then [(runName data, JS.text (versionTag data))]
                          else [])
             (fun _ => []));
    [| see_history_calls | reflexivity].
  rewrite filter_concat, concat_map, !map_map, <- flat_map_concat_map.
  apply flat_map_ext. intros [key bucket]. simpl.
  induction bucket as [|data bucket IH]; simpl; [reflexivity|].
  rewrite IH. now destruct (JS.truthy (versionTag data)).
Qed.

(** *** Node handles *)

Lemma new_nodes_history n content data :
  new_nodes (hcalls n content data) = seq n (history_size data).
Proof.
  unfold history_calls, history_size. run_render.
  destruct (JS.truthy (versionTag data));
    destruct (JS.truthy (checkCommand data)); reflexivity.
Qed.

Lemma new_nodes_bucket bucket : forall n content,
  new_nodes (bcalls n content bucket) = seq n (bucket_size bucket).
Proof.
  induction bucket as [|data bucket IH]; intros n content; [reflexivity|].
  change (bcalls n content (data :: bucket))
    with (hcalls n content data
          ++ bcalls (history_size data + n) content bucket)%list.
  unfold new_nodes in *. rewrite flat_map_app.
  fold (new_nodes (hcalls n content data)).
  rewrite new_nodes_history, IH.
  change (bucket_size (data :: bucket))
    with (history_size data + bucket_size bucket)%nat.
  rewrite seq_app. do 2 f_equal. lia.
Qed.

Lemma new_nodes_table groups : forall n,
  new_nodes (tcalls n groups) = seq n (table_size groups).
Proof.
  induction groups as [|[key bucket] groups IH]; intros n; [reflexivity|].
  change (tcalls n ((key, bucket) :: groups))
    with (gcalls n key bucket
          ++ tcalls (bucket_size bucket + (3 + n)) groups)%list.
  unfold group_calls.
  unfold new_nodes in *. rewrite !flat_map_app, IH.
  fold (new_nodes (bcalls (3 + n) (2 + n) bucket)).
  rewrite new_nodes_bucket.
  change (table_size ((key, bucket) :: groups))
    with ((bucket_size bucket + 3) + table_size groups)%nat.
  replace (bucket_size bucket + 3 + table_size groups)%nat
    with (3 + (bucket_size bucket + table_size groups))%nat by lia.
  rewrite (seq_app 3), (seq_app (bucket_size bucket)).
  replace (n + 3)%nat with (3 + n)%nat by lia.
  replace (3 + n + bucket_size bucket)%nat
    with (bucket_size bucket + (3 + n))%nat by lia.
  rewrite <- app_assoc. reflexivity.
Qed.

Lemma placed_history lo root n content data :
  (lo <= content < n)%nat ->
  placed_in_earlier lo root (hcalls n content data).
Proof.
  intros H. unfold placed_in_earlier, history_calls. run_render.
  destruct (JS.truthy (versionTag data));
    destruct (JS.truthy (checkCommand data)); simpl;
    repeat (apply Forall_cons; [simpl; lia|]); apply Forall_nil.
Qed.

Lemma placed_app lo root a b :
  placed_in_earlier lo root a -> placed_in_earlier lo root b ->
  placed_in_earlier lo root (a ++ b).
Proof.
  unfold placed_in_earlier, placements. rewrite flat_map_app.
  intros Ha Hb. apply Forall_app. now split.
Qed.

Lemma placed_bucket lo root bucket : forall n content,
  (lo <= content < n)%nat ->
  placed_in_earlier lo root (bcalls n content bucket).
Proof.
  induction bucket as [|data bucket IH]; intros n content H.
  - constructor.
  - change (bcalls n content (data :: bucket))
      with (hcalls n content data
            ++ bcalls (history_size data + n) content bucket)%list.
    apply placed_app; [now apply placed_history | apply IH; lia].
Qed.

Lemma placed_table lo groups : forall n,
  (lo <= n)%nat -> placed_in_earlier lo domNode (tcalls n groups).
Proof.
  induction groups as [|[key bucket] groups IH]; intros n H.
  - constructor.
  - change (tcalls n ((key, bucket) :: groups))
      with (gcalls n key bucket
            ++ tcalls (bucket_size bucket + (3 + n)) groups)%list.
    apply placed_app; [|apply IH; lia].
    unfold group_calls. apply placed_app.
    + unfold placed_in_earlier. simpl.
      repeat (apply Forall_cons; [simpl; lia|]). apply Forall_nil.
    + apply placed_bucket. lia.
Qed.

(** *** Where the entry of a record is *)

Lemma entry_in_app_l a b content data :
  entry_in newDate formatDateAMPM a content data ->
  entry_in newDate formatDateAMPM (a ++ b) content data.
Proof.
  intros (h & w & t & ns & nm & us & u & H).
  exists h, w, t, ns, nm, us, u.
  repeat rewrite in_app_iff. tauto.
Qed.

Lemma entry_in_app_r a b content data :
  entry_in newDate formatDateAMPM b content data ->
  entry_in newDate formatDateAMPM (a ++ b) content data.
Proof.
  intros (h & w & t & ns & nm & us & u & H).
  exists h, w, t, ns, nm, us, u.
  repeat rewrite in_app_iff. tauto.
Qed.

Lemma entry_in_history n content data :
  entry_in newDate formatDateAMPM (hcalls n content data) content data.
Proof.
  unfold entry_in, history_calls. run_render.
  destruct (JS.truthy (versionTag data));
    destruct (JS.truthy (checkCommand data)); simpl;
    do 7 eexists; repeat split; eauto 20.
Qed.

Lemma entry_in_bucket bucket data : forall n content,
  In data bucket ->
  entry_in newDate formatDateAMPM (bcalls n content bucket) content data.
Proof.
  induction bucket as [|data' bucket IH]; intros n content Hin;
    [destruct Hin|].
  change (bcalls n content (data' :: bucket))
    with (hcalls n content data'
          ++ bcalls (history_size data' + n) content bucket)%list.
  destruct Hin as [->|Hin].
  - apply entry_in_app_l, entry_in_history.
  - apply entry_in_app_r. now apply IH.
Qed.

Lemma entry_under_table groups key bucket data : forall n,
  In (key, bucket) groups -> In data bucket ->
  entry_under newDate formatDateAMPM (tcalls n groups) domNode key data.
Proof.
  induction groups as [|[key' bucket'] groups IH]; intros n Hin Hd;
    [destruct Hin|].
  destruct Hin as [Heq|Hin].
  - injection Heq as -> ->.
    exists n, (1 + n)%nat, (2 + n)%nat.
    change (tcalls n ((key, bucket) :: groups))
      with (gcalls n key bucket
            ++ tcalls (bucket_size bucket + (3 + n)) groups)%list.
    split; [|split; [|split]].
    1-3: apply in_or_app; left; unfold group_calls; simpl; auto.
    apply entry_in_app_l. unfold group_calls.
    apply entry_in_app_r. now apply entry_in_bucket.
  - destruct (IH (bucket_size bucket' + (3 + n))%nat Hin Hd)
      as (g & h & c & Hg & Hh & Hc & He).
    exists g, h, c.
    change (tcalls n ((key', bucket') :: groups))
      with (gcalls n key' bucket'
            ++ tcalls (bucket_size bucket' + (3 + n)) groups)%list.
    split; [|split; [|split]].
    1-3: apply in_or_app; right; assumption.
    now apply entry_in_app_r.
Qed.

End RenderingFacts.

(** ** The rendered table, read from the input *)

(** The buckets of a grouping are the input filtered by their keys. *)
Lemma grouping_values
    (newDate : string -> Date) (getMonthName : JS.number -> string)
    (historyData : list RunHistoryData) (o : Obj.t (list RunHistoryData)) :
  historyGroupByDate newDate getMonthName historyData = JS.Normal o ->
  Obj.keys o
  = first_occurrences (map (groupDate newDate getMonthName) historyData)
  /\ map snd o
     = map (fun key =>
              labelled (groupDate newDate getMonthName) key historyData)
         (Obj.keys o)
  /\ Permutation (List.concat (map snd o)) historyData.
Proof.
  intros Ho.
  destruct (historyGroupByDate_keys newDate getMonthName historyData)
    as (o1 & Ho1 & Hk).
  destruct (historyGroupByDate_spec newDate getMonthName historyData)
    as (o2 & Ho2 & Hnd & Hget & Hperm).
  rewrite Ho in Ho1, Ho2. injection Ho1 as <-. injection Ho2 as <-.
  split; [exact Hk|]. split; [|exact Hperm].
  unfold Obj.keys. rewrite map_map. apply map_ext_in.
  intros [key b] Hin. simpl.
  apply (get_of_member o key b Hnd) in Hin. now apply Hget in Hin.
Qed.

(** The rendering of a history is the table of its grouping. *)
Lemma rendering_is_table
    (newDate : string -> Date) (getMonthName : JS.number -> string)
    (formatDateAMPM : Date -> string) (domNode n : nat)
    (historyData : list RunHistoryData) :
  exists o,
    historyGroupByDate newDate getMonthName historyData = JS.Normal o
    /\ rendering newDate getMonthName formatDateAMPM domNode n historyData
       = (table_calls newDate formatDateAMPM domNode n o, JS.Normal tt).
Proof.
  destruct (renderRunHistoryTable_run newDate getMonthName formatDateAMPM
              domNode historyData n []) as (o & Ho & Hrun).
  exists o. split; [exact Ho|]. unfold rendering. now rewrite Hrun.
Qed.


(** X11: every record gets exactly one clickable entry, and its click
    runs the handler on that record.  Read top to bottom, the records
    behind the entries are the input taken day by day, the days in the
    order of their first occurrence and the records of one day in input
    order; they are a rearrangement of the input. *)
Theorem table_entries_are_the_input_by_day
    (newDate : string -> Date) (getMonthName : JS.number -> string)
    (formatDateAMPM : Date -> string) (domNode n : nat)
    (historyData : list RunHistoryData) :
  let calls :=
    fst (rendering newDate getMonthName formatDateAMPM domNode n
           historyData) in
  let label := groupDate newDate getMonthName in
  entry_records calls
  = flat_map (fun key =>
                List.filter (fun data => (label data =? key)%string)
                  historyData)
      (first_occurrences (map label historyData))
  /\ Permutation (entry_records calls) historyData.
Proof.
  destruct (rendering_is_table newDate getMonthName formatDateAMPM domNode n
              historyData) as (o & Ho & ->).
  destruct (grouping_values _ _ _ _ Ho) as (Hk & Hv & Hperm).
  simpl. rewrite entry_records_table. split; [|exact Hperm].
  rewrite Hv, Hk, flat_map_concat_map. reflexivity.
Qed.

(** X12: the entry of every record sits under the header of its day: the
    calls make a group in the node of the widget whose header shows the
    day label of the record and whose content node holds a history node
    with the clickable wrapper of the record, its formatted time, its run
    name and its user. *)
Theorem table_entry_is_under_its_day
    (newDate : string -> Date) (getMonthName : JS.number -> string)
    (formatDateAMPM : Date -> string) (domNode n : nat)
    (historyData : list RunHistoryData) (data : RunHistoryData) :
  In data historyData ->
  entry_under newDate formatDateAMPM
    (fst (rendering newDate getMonthName formatDateAMPM domNode n
            historyData))
    domNode (groupDate newDate getMonthName data) data.
Proof.
  intros Hin.
  destruct (rendering_is_table newDate getMonthName formatDateAMPM domNode n
              historyData) as (o & Ho & ->).
  destruct (historyGroupByDate_spec newDate getMonthName historyData)
    as (o' & Ho' & Hnd & Hget & _).
  rewrite Ho in Ho'. injection Ho' as <-.
  set (key := groupDate newDate getMonthName data).
  set (b := labelled (groupDate newDate getMonthName) key historyData).
  assert (Hb : In data b).
  { apply filter_In. split; [exact Hin | apply String.eqb_refl]. }
  assert (Hk : Obj.get o key = Some b).
  { apply Hget. split; [reflexivity|]. intros E. rewrite E in Hb.
    destruct Hb. }
  simpl. apply (entry_under_table _ _ _ o key b data n); [|exact Hb].
  clear - Hk. induction o as [|[k' b'] o IH]; simpl in *; [discriminate|].
  destruct (String.eqb_spec k' key) as [->|_].
  - injection Hk as ->. now left.
  - right. now apply IH.
Qed.

Lemma table_entry_is_under_its_day_witness :
  entry_under IsoDate.iso_newDate hours_minutes
    (fst (rendering IsoDate.iso_newDate util_getMonthName hours_minutes
            0 1 three_runs))
    0 "6 June, 2024" (record "second" "2024-06-06 08:00:00" None).
Proof.
  apply (table_entry_is_under_its_day IsoDate.iso_newDate util_getMonthName
           hours_minutes 0 1 three_runs
           (record "second" "2024-06-06 08:00:00" None)).
  simpl; tauto.
Defined.

(** X13: a check-command link is made exactly for the entries whose
    record has a non-empty check command, and a run tag exactly for those
    with a non-empty version tag, made from the run name and the tag of
    the record: read top to bottom, links and tags are the entries
    filtered. *)
Theorem table_links_and_tags_follow_the_records
    (newDate : string -> Date) (getMonthName : JS.number -> string)
    (formatDateAMPM : Date -> string) (domNode n : nat)
    (historyData : list RunHistoryData) :
  let calls :=
    fst (rendering newDate getMonthName formatDateAMPM domNode n
           historyData) in
  checkCommand_links calls
  = List.filter (fun data => JS.truthy (checkCommand data))
      (entry_records calls)
  /\ run_tags calls
     = map (fun data => (runName data, JS.text (versionTag data)))
         (List.filter (fun data => JS.truthy (versionTag data))
            (entry_records calls)).
Proof.
  destruct (rendering_is_table newDate getMonthName formatDateAMPM domNode n
              historyData) as (o & Ho & ->).
  simpl.
  now rewrite checkCommand_links_table, run_tags_table, entry_records_table.
Qed.

Lemma list_sum_concat (ls : list (list nat)) :
  list_sum (List.concat ls) = list_sum (map list_sum ls).
Proof.
  induction ls as [|l ls IH]; simpl; [reflexivity|].
  now rewrite list_sum_app, IH.
Qed.

Lemma list_sum_permutation (a b : list nat) :
  Permutation a b -> list_sum a = list_sum b.
Proof. induction 1; simpl; lia. Qed.

Lemma table_size_count (groups : list (string * list RunHistoryData)) :
  table_size groups
  = (3 * List.length groups
     + list_sum (map history_size (List.concat (map snd groups))))%nat.
Proof.
  induction groups as [|[key bucket] groups IH]; [reflexivity|].
  change (table_size ((key, bucket) :: groups))
    with ((bucket_size bucket + 3) + table_size groups)%nat.
  rewrite IH. simpl. rewrite map_app, list_sum_app.
  unfold bucket_size. lia.
Qed.

(** X14: the nodes of a rendering are new and each is placed once, into
    the node of the widget or into a node made earlier by the same
    rendering.  The nodes made are the consecutive handles from the first
    unused one on, three per day group and nine per entry plus one per
    run tag and one per check-command link; none of them is the node of
    the widget when that one was in use before. *)
Theorem table_nodes_are_new_and_placed_in_earlier
    (newDate : string -> Date) (getMonthName : JS.number -> string)
    (formatDateAMPM : Date -> string) (domNode n : nat)
    (historyData : list RunHistoryData) :
  (domNode < n)%nat ->
  let calls :=
    fst (rendering newDate getMonthName formatDateAMPM domNode n
           historyData) in
  let count :=
    (3 * List.length
           (first_occurrences
              (map (groupDate newDate getMonthName) historyData))
     + list_sum (map history_size historyData))%nat in
  new_nodes calls = seq n count
  /\ NoDup (new_nodes calls)
  /\ ~ In domNode (new_nodes calls)
  /\ placed_in_earlier n domNode calls.
Proof.
  intros Hdom.
  destruct (rendering_is_table newDate getMonthName formatDateAMPM domNode n
              historyData) as (o & Ho & ->).
  destruct (grouping_values _ _ _ _ Ho) as (Hk & _ & Hperm).
  simpl.
  assert (Hnodes : new_nodes (table_calls newDate formatDateAMPM domNode n o)
                   = seq n (3 * List.length
                                  (first_occurrences
                                     (map (groupDate newDate getMonthName)
                                        historyData))
                            + list_sum (map history_size historyData))).
  { rewrite new_nodes_table, table_size_count. do 2 f_equal.
    - rewrite <- Hk. unfold Obj.keys. now rewrite length_map.
    - apply list_sum_permutation. now apply Permutation_map. }
  rewrite Hnodes. repeat split.
  - apply seq_NoDup.
  - rewrite in_seq. lia.
  - apply placed_table. lia.
Qed.

Lemma table_nodes_are_new_and_placed_in_earlier_witness :
  let calls :=
    fst (rendering IsoDate.iso_newDate util_getMonthName hours_minutes
           0 1 three_runs) in
  new_nodes calls = seq 1 34
  /\ NoDup (new_nodes calls)
  /\ ~ In 0%nat (new_nodes calls)
  /\ placed_in_earlier 1 0 calls.
Proof.
  apply (table_nodes_are_new_and_placed_in_earlier IsoDate.iso_newDate
           util_getMonthName hours_minutes 0 1 three_runs).
  lia.
Defined.


(** ** Further facts on the parts put together *)

Lemma replace_spaces_T_length (s : string) :
  String.length (JS.replace_spaces_T s) = String.length s.
Proof. induction s as [|c s IH]; simpl; [reflexivity | now rewrite IH]. Qed.

(** X16: the normalisation of the time text, [replace(/ /g, 'T')], keeps
    the length of the text, leaves no space behind, changes nothing in a
    text without space and so changes nothing when applied again: every
    space becomes a T, not only the one between date and time. *)
Theorem time_normalisation_facts (s : string) :
  String.length (JS.replace_spaces_T s) = String.length s
  /\ spaceless (JS.replace_spaces_T s) = true
  /\ (spaceless s = true -> JS.replace_spaces_T s = s)
  /\ JS.replace_spaces_T (JS.replace_spaces_T s) = JS.replace_spaces_T s
  /\ JS.replace_spaces_T (" " ++ s ++ " ")
     = "T" ++ JS.replace_spaces_T s ++ "T".
Proof.
  split; [apply replace_spaces_T_length|].
  split; [apply replace_spaces_T_no_space|].
  split; [apply replace_spaces_T_spaceless|].
  split.
  - apply replace_spaces_T_spaceless, replace_spaces_T_no_space.
  - simpl. now rewrite replace_spaces_T_app.
Qed.

(** X17: the handler looks at the run name, the time and the version tag
    of a record and at nothing else: two records that agree on these three
    are projected alike, whatever their run identifiers, users and check
    commands.  Runs that share a name are not told apart. *)
Theorem handler_reads_name_time_and_tag_only
    (newDate : string -> Date) (filter : BugFilterView)
    (item item' : RunHistoryData) :
  runName item = runName item' ->
  time item = time item' ->
  versionTag item = versionTag item' ->
  Effect.run (onRunHistoryClick newDate filter item)
  = Effect.run (onRunHistoryClick newDate filter item').
Proof.
  intros Hn Ht Hv. unfold Effect.run, onRunHistoryClick, date_of.
  now rewrite Hn, Ht, Hv.
Qed.

Lemma handler_reads_name_time_and_tag_only_witness :
  Effect.run (onRunHistoryClick IsoDate.iso_newDate fullFilterView
                tagged_with_command)
  = Effect.run (onRunHistoryClick IsoDate.iso_newDate fullFilterView
                  (record "acme" "2024-06-05 10:15:30" (Some "v1.2"))).
Proof.
  apply (handler_reads_name_time_and_tag_only IsoDate.iso_newDate
           fullFilterView tagged_with_command
           (record "acme" "2024-06-05 10:15:30" (Some "v1.2")));
    reflexivity.
Defined.

(** X18: a check-command link always has a command to show.  Every record
    behind a link of the rendering is a record of the input whose check
    command is present and not empty, and the click on the link sets the
    dialog content to that very text and then shows the dialog. *)
Theorem check_command_link_shows_its_command
    (newDate : string -> Date) (getMonthName : JS.number -> string)
    (formatDateAMPM : Date -> string) (domNode n : nat)
    (historyData : list RunHistoryData) (data : RunHistoryData) :
  In data
    (checkCommand_links
       (fst (rendering newDate getMonthName formatDateAMPM domNode n
               historyData))) ->
  In data historyData
  /\ exists command,
       checkCommand data = Some command
       /\ command <> ""
       /\ showCheckCommand data
          = [ dialog_set_content command; dialog_show ].
Proof.
  destruct (rendering_is_table newDate getMonthName formatDateAMPM domNode n
              historyData) as (o & Ho & ->).
  destruct (grouping_values _ _ _ _ Ho) as (_ & _ & Hperm).
  simpl. rewrite checkCommand_links_table. intros Hin.
  apply filter_In in Hin as [Hin Htruthy]. split.
  - now apply (Permutation_in _ Hperm).
  - unfold showCheckCommand. destruct (checkCommand data) as [c|];
      [|discriminate]. exists c. repeat split.
    simpl in Htruthy. intros ->. discriminate.
Qed.

Lemma check_command_link_shows_its_command_witness :
  In tagged_with_command [ acme_incremental; tagged_with_command ]
  /\ exists command,
       checkCommand tagged_with_command = Some command
       /\ command <> ""
       /\ showCheckCommand tagged_with_command
          = [ dialog_set_content command; dialog_show ].
Proof.
  apply (check_command_link_shows_its_command IsoDate.iso_newDate
           util_getMonthName hours_minutes 0 1
           [ acme_incremental; tagged_with_command ] tagged_with_command).
  vm_compute. left. reflexivity.
Defined.

